(** * AlphaGradient: dataset normalisation and the asset base class

    A shallow embedding of [src/AlphaGradient/data/datatools.py] and
    [src/AlphaGradient/finance/asset.py].

    Conventions of the embedding.
    - Python exceptions are values of [exn]; a call that may raise returns a
      [result].
    - A Python string is a Rocq [string] (a sequence of bytes).  The
      embedding follows Python on strings of ASCII characters
      ([PyStr.isascii]): there [str.upper] changes the letters a to z
      only and [repr] copies every printable character.  On other
      characters Python's [str.upper] follows the Unicode case tables
      (it can change the length of a string) and [repr] escapes what
      is not printable; the embedding copies their bytes.
    - A numeric scalar is a value of an abstract type [V]: the code only
      copies such scalars, it never computes with them.
    - A [pandas] object is modelled by the part of it the code observes: a
      frame is an index and a list of labelled columns (labels may repeat, as
      in pandas).  Calls whose outcome is decided outside the repository
      (reading a file, building a frame from a sequence, converting a column
      to datetimes, parsing an ISO date) come with their outcome as an
      argument. *)

From Stdlib Require Import ZArith Ascii String.
From stdpp Require Import gmap strings list.

Open Scope string_scope.

(** ** Exceptions and results *)

Inductive exn : Type :=
| AttributeError (attr : string)
| TypeError
| ValueError (msg : string)
| KeyError (key : string)
| IndexError
| RecursionError
| FileNotFoundError
| AssetDuplicationError (msg : string).

Inductive result (A : Type) : Type :=
| Ok (a : A)
| Err (e : exn).

Arguments Ok {A} a.
Arguments Err {A} e.

#[global] Instance result_ret : MRet result := fun A a => Ok a.

#[global] Instance result_bind : MBind result := fun A B k r =>
  match r with
  | Ok a => k a
  | Err e => Err e
  end.

Definition is_ok {A : Type} (r : result A) : bool :=
  match r with Ok _ => true | Err _ => false end.

(** ** Python strings *)

Module PyStr.

Fixpoint map_chars (f : ascii -> ascii) (s : string) : string :=
  match s with
  | EmptyString => EmptyString
  | String c s' => String (f c) (map_chars f s')
  end.

(** One character of [str.replace(' ', '_')]. *)
Definition underscore (c : ascii) : ascii :=
  if Ascii.eqb c " " then "_"%char else c.

(** One character of [str.upper()], for an ASCII character; any other
    byte is copied. *)
Definition upper_char (c : ascii) : ascii :=
  let n := nat_of_ascii c in
  if (97 <=? n)%nat && (n <=? 122)%nat then ascii_of_nat (n - 32) else c.

Definition upper (s : string) : string := map_chars upper_char s.

(** [str.isascii()]: every character is below 128. *)
Fixpoint isascii (s : string) : bool :=
  match s with
  | EmptyString => true
  | String c s' => (nat_of_ascii c <? 128)%nat && isascii s'
  end.

(** Truth value of a string: the empty string is false. *)
Definition truthy (s : string) : bool :=
  match s with EmptyString => false | String _ _ => true end.

(** A name that is a string or [None], when it is true: a string that
    is not empty. *)
Definition truthy_opt (o : option string) : option string :=
  match o with
  | Some s => if truthy s then Some s else None
  | None => None
  end.

(** Truth value of a name that is a string or [None]. *)
Definition truth (o : option string) : bool :=
  match truthy_opt o with Some _ => true | None => false end.

Definition quote : ascii := "'"%char.
Definition dquote : ascii := ascii_of_nat 34.
Definition backslash : ascii := ascii_of_nat 92.

Fixpoint has_char (c : ascii) (s : string) : bool :=
  match s with
  | EmptyString => false
  | String d s' => Ascii.eqb c d || has_char c s'
  end.

Definition hex_digit (n : nat) : ascii :=
  nth n (list_ascii_of_string "0123456789abcdef") "0"%char.

(** [repr] of one character inside quotes [q], for an ASCII character;
    any other byte is copied. *)
Definition repr_char (q c : ascii) : string :=
  let n := nat_of_ascii c in
  if Ascii.eqb c backslash then String backslash (String backslash EmptyString)
  else if Ascii.eqb c q then String backslash (String q EmptyString)
  else if (n =? 10)%nat then String backslash "n"
  else if (n =? 13)%nat then String backslash "r"
  else if (n =? 9)%nat then String backslash "t"
  else if (n <? 32)%nat || (n =? 127)%nat then
    String backslash (String "x" (String (hex_digit (n / 16)) (String (hex_digit (n mod 16)) EmptyString)))
  else String c EmptyString.

Fixpoint repr_body (q : ascii) (s : string) : string :=
  match s with
  | EmptyString => EmptyString
  | String c s' => repr_char q c ++ repr_body q s'
  end.

(** [repr(s)] of a string: single quotes, unless the string has a single
    quote and no double quote. *)
Definition repr (s : string) : string :=
  let q := if has_char quote s && negb (has_char dquote s) then dquote else quote in
  String q (repr_body q s ++ String q EmptyString).

(** [str(l)[1:-1]] of a list of strings: the [repr] of its items, separated
    by a comma and a space. *)
Definition list_body (l : list string) : string :=
  String.concat ", " (map repr l).

(** [needle] occurs in [hay]. *)
Definition occurs (needle hay : string) : Prop :=
  exists pre post : string, hay = pre ++ needle ++ post.

End PyStr.

(** ** The part of pandas the code relies on *)

Module pd.

(** A cell of a frame: a datetime (seconds on some clock), a number, or the
    missing-value marker. *)
Inductive cell (V : Type) : Type :=
| Stamp (t : Z)
| Num (v : V)
| NaN.

Arguments Stamp {V} t.
Arguments Num {V} v.
Arguments NaN {V}.

Inductive Index : Type :=
| RangeIndex (n : nat)
| DatetimeIndex (stamps : list Z).

(** A frame: its row index and its labelled columns, in order. Every column
    of a frame pandas builds has one cell per row. *)
Record DataFrame (V : Type) : Type := {
  index : Index;
  series : list (string * list (cell V))
}.

Arguments index {V} _.
Arguments series {V} _.

(** What a subscript selects: one cell, or several when a label repeats. *)
Inductive value (V : Type) : Type :=
| Scalar (c : cell V)
| Slice (cs : list (cell V)).

Arguments Scalar {V} c.
Arguments Slice {V} cs.

Section Frames.
Context {V : Type}.
Implicit Types (df : DataFrame V) (label : string).

(** [df.columns] *)
Definition columns df : list string := map fst (series df).

Definition index_length (i : Index) : nat :=
  match i with
  | RangeIndex n => n
  | DatetimeIndex stamps => length stamps
  end.

(** [df.empty]: no row or no column. *)
Definition empty df : bool :=
  (index_length (index df) =? 0)%nat || (length (series df) =? 0)%nat.

(** [df.columns = [f(c) for c in df.columns]] *)
Definition rename (f : string -> string) df : DataFrame V :=
  {| index := index df;
     series := map (fun col => (f col.1, col.2)) (series df) |}.

(** [df[label]]: the columns carrying that label. *)
Definition select label df : list (list (cell V)) :=
  map snd (filter (fun col => col.1 = label) (series df)).

(** [df[label] = cells]: overwrite the columns of that label, or append a
    new column. *)
Definition setitem label (cells : list (cell V)) df : DataFrame V :=
  {| index := index df;
     series :=
       if bool_decide (label ∈ columns df)
       then map (fun col => if bool_decide (col.1 = label)
                            then (col.1, cells) else col) (series df)
       else (series df ++ [(label, cells)])%list |}.

(** [df.drop(label, axis=1, inplace=True)] *)
Definition drop label df : result (DataFrame V) :=
  if bool_decide (label ∈ columns df)
  then Ok {| index := index df;
             series := filter (fun col => col.1 ≠ label) (series df) |}
  else Err (KeyError label).

(** [df.set_index(pd.DatetimeIndex(...))], the index already converted. *)
Definition set_index (stamps : list Z) df : DataFrame V :=
  {| index := DatetimeIndex stamps; series := series df |}.

(** [pd.DataFrame([row], columns=labels)]: a frame of one row. *)
Definition one_row (labels : list string) (row : list (cell V)) : DataFrame V :=
  {| index := RangeIndex 1;
     series := zip_with (fun l c => (l, [c])) labels row |}.

Definition isna (c : cell V) : bool :=
  match c with NaN => true | _ => false end.

(** Row [i] of a frame, as a labelled series. *)
Definition row_at df (i : nat) : list (string * cell V) :=
  map (fun col => (col.1, default NaN (col.2 !! i))) (series df).

Definition nan_row df : list (string * cell V) :=
  map (fun col => (col.1, NaN)) (series df).

Definition has_nan (row : list (string * cell V)) : bool :=
  existsb (fun e => isna e.2) row.

Fixpoint is_monotonic_increasing (l : list Z) : bool :=
  match l with
  | [] => true
  | x :: l' =>
      match l' with
      | [] => true
      | y :: _ => (x <=? y)%Z && is_monotonic_increasing l'
      end
  end.

(** [df.asof(date)] for one date: the last row, at or before [date],
    that has no missing value; a row of missing values when there is
    none. The index must be sorted. *)
Definition asof df (date : Z) : result (list (string * cell V)) :=
  match index df with
  | RangeIndex 0 => Err IndexError
  | RangeIndex (S _) => Err TypeError
  | DatetimeIndex stamps =>
      if negb (is_monotonic_increasing stamps)
      then Err (ValueError "asof requires a sorted index")
      else
        match stamps with
        | [] => Err IndexError
        | start :: _ =>
            if (date <? start)%Z then Ok (nan_row df)
            else
              let complete :=
                filter (fun i => (default 0%Z (stamps !! i) <= date)%Z
                                 ∧ has_nan (row_at df i) = false)
                       (seq 0 (length stamps)) in
              match last complete with
              | Some i => Ok (row_at df i)
              | None => Ok (nan_row df)
              end
        end
  end.

(** [row[key]] on a labelled series. *)
Definition getitem (row : list (string * cell V)) (key : string) : result (value V) :=
  match filter (fun e => e.1 = key) row with
  | [] => Err (KeyError key)
  | [e] => Ok (Scalar e.2)
  | es => Ok (Slice (map snd es))
  end.

End Frames.

End pd.

(** ** [data/datatools.py] *)

Module Datatools.

Import pd.

(** Modelled from the spec: [get_settings] of the asset types is not in the
    sources. Of the seven values it unpacks to, the constructor uses the
    last four: the required and optional column specifications (a list of
    names, or a mapping of which only the names matter, or [None]) and the
    names of the close and open columns (a string or [None]). *)
Record Settings : Type := {
  s_required : option (list string);
  s_optional : option (list string);
  s_close_value : option string;
  s_open_value : option string
}.

Inductive sequence_kind : Type := PyList | NdArray.

Definition type_name (k : sequence_kind) : string :=
  match k with PyList => "list" | NdArray => "ndarray" end.

(** The raw data handed to the constructor, other than [None].

    Modelled from the spec: [is_numeric] belongs to the constants module,
    which is not in the sources; it holds exactly of the numeric scalars,
    here the inputs [RNumeric v].

    - [RSequence k built]: a list or an array, with the outcome [built] of
      [pd.DataFrame(data, columns=columns)];
    - [RFrame df]: a frame;
    - [ROther shown parsed]: anything else, with its text [shown] and the
      outcome [parsed] of [pd.read_table(data, sep=',')]. *)
Inductive RawData (V : Type) : Type :=
| RNumeric (v : V)
| RSequence (k : sequence_kind) (built : result (DataFrame V))
| RFrame (df : DataFrame V)
| ROther (shown : string) (parsed : result (DataFrame V)).

Arguments RNumeric {V} v.
Arguments RSequence {V} k built.
Arguments RFrame {V} df.
Arguments ROther {V} shown parsed.

(** The attributes of an [AssetData] object; [None] is an attribute that
    was never assigned. *)
Record AssetData (V : Type) : Type := {
  data : option (DataFrame V);
  open_value : option string;
  close_value : option string;
  single_valued : option bool
}.

Arguments data {V} _.
Arguments open_value {V} _.
Arguments close_value {V} _.
Arguments single_valued {V} _.

(** The names the class [AssetData] itself defines (lines 77 to 267). *)
Definition class_attributes : list string :=
  ["__init__"; "__getattr__"; "__getitem__"; "__str__"; "__bool__";
   "column_format"; "validate_columns"].

(** [column.replace(' ', '_').upper()] *)
Definition column_format (column : string) : string :=
  PyStr.upper (PyStr.map_chars PyStr.underscore column).

(** The keys of [{c: ... for c in l}], in insertion order: a repeated key
    keeps its first place. *)
Fixpoint keys (l : list string) : list string :=
  match l with
  | [] => []
  | c :: l' => c :: filter (fun c' => c' ≠ c) (keys l')
  end.

(** [to_dict] of [validate_columns], on the names. *)
Definition to_dict (columns : list string) : list string :=
  keys (map column_format columns).

(** The names line 264 lists: [list(required) + list(optional)], after
    [to_dict]. *)
Definition listed_names (required optional : option (list string)) : list string :=
  (to_dict (default [] required) ++ to_dict (default [] optional))%list.

Section Dataset.
Context {V : Type}.

(** The loop of lines 263 to 265, over the labels the frame had when the
    loop started. *)
Fixpoint drop_unlisted (todo : list string) (listed : list string)
    (data : DataFrame V) : result (DataFrame V) :=
  match todo with
  | [] => Ok data
  | column :: todo' =>
      if bool_decide (column ∈ listed) then drop_unlisted todo' listed data
      else data' ← drop column data; drop_unlisted todo' listed data'
  end.

Definition validate_columns (data : DataFrame V)
    (required optional : option (list string)) : result (DataFrame V) :=
  let required := to_dict (default [] required) in
  let optional := to_dict (default [] optional) in
  let unsatisfied := filter (fun column => column ∉ columns data) required in
  if negb (bool_decide (unsatisfied = []))
  then Err (ValueError ("AssetData missing required columns: "
                        ++ PyStr.list_body unsatisfied))
  else drop_unlisted (columns data) (required ++ optional)%list data.

(** Lines 90 to 114: from the raw data to a frame. The numeric case also
    changes the local [required] and [close_value]. A frame is no input
    for [pd.read_table], whose [ValueError] line 105 swallows. *)
Definition acquire (today : Z) (raw : RawData V) (columns : option (list string))
    (required : list string) (close_value : option string)
    : result (DataFrame V * list string * option string) :=
  match raw with
  | RNumeric v =>
      let frame := Stamp today :: replicate (length required + 1) (Num v) in
      let close_value :=
        match PyStr.truthy_opt close_value with
        | Some c => c
        | None => "CLOSE"
        end in
      let required := "DATE" :: close_value :: required in
      Ok (one_row required frame, required, Some close_value)
  | RSequence k built =>
      match columns with
      | None | Some [] =>
          Err (ValueError (type_name k ++
            " input requires explicit column names during initialization"))
      | Some _ => df ← built; Ok (df, required, close_value)
      end
  | RFrame df => Ok (df, required, close_value)
  | ROther shown parsed =>
      match parsed with
      | Ok df => Ok (df, required, close_value)
      | Err TypeError | Err (ValueError _) =>
          Err (ValueError ("Unable to create valid asset dataset from " ++ shown))
      | Err e => Err e
      end
  end.

(** Lines 110 to 112. *)
Definition date_from_index (data : DataFrame V) : DataFrame V :=
  match index data with
  | DatetimeIndex stamps => setitem "DATE" (map Stamp stamps) data
  | RangeIndex _ => data
  end.

(** Lines 110 to 117: the frame dated from its index, its labels
    formatted. *)
Definition formatted (data : DataFrame V) : DataFrame V :=
  rename column_format (date_from_index data).

(** Lines 120 and 121. *)
Definition default_name (name : string) (data : DataFrame V)
    (given : option string) : option string :=
  if bool_decide (name ∈ pd.columns data) && negb (PyStr.truth given)
  then Some name else given.

Definition no_name_message : string :=
  "Must specify at least one opening or closing value name present in the data".

(** Lines 124 to 142: the open name, the close name and [single_valued]. *)
Definition resolve (open_value close_value : option string)
    : result (string * string * bool) :=
  match PyStr.truthy_opt close_value, PyStr.truthy_opt open_value with
  | Some close_value, None =>
      let close_value := column_format close_value in
      Ok (close_value, close_value, true)
  | None, Some open_value =>
      let open_value := column_format open_value in
      Ok (open_value, open_value, true)
  | None, None => Err (ValueError no_name_message)
  | Some close_value, Some open_value =>
      Ok (column_format open_value, column_format close_value, false)
  end.

(** Lines 149 to 158; [list(set(required))] lists the set in an order of
    the set's own. *)
Definition assemble (open_value close_value : string) (required : list string)
    : list string :=
  let required :=
    if PyStr.truthy close_value then close_value :: required else required in
  let required :=
    if PyStr.truthy open_value then open_value :: required else required in
  let required := "DATE" :: required in
  elements (list_to_set required : gset string).

(** The test of line 161. *)
Definition both_required (open_value close_value : string)
    (required : list string) : bool :=
  forallb (fun value => bool_decide (value ∈ required)) [open_value; close_value].

(** The object before any attribute is assigned. *)
Definition blank : AssetData V :=
  {| data := None; open_value := None; close_value := None;
     single_valued := None |}.

(** [AssetData(asset_type, data, columns)]. [today] is the reading of
    [datetime.today()], [to_datetimes] the conversion [pd.DatetimeIndex]
    applies to the selection [data["DATE"]]. *)
Definition __init__ (to_datetimes : list (list (cell V)) -> result (list Z))
    (today : Z) (asset_type : Settings) (raw : option (RawData V))
    (columns : option (list string)) : result (AssetData V) :=
  let required := default [] (s_required asset_type) in
  let required := map column_format required in
  match raw with
  | None => Ok blank
  | Some raw =>
      '(data, required, close_value) ←
        acquire today raw columns required (s_close_value asset_type);
      let data := date_from_index data in
      let data := rename column_format data in
      let open_value := default_name "OPEN" data (s_open_value asset_type) in
      let close_value := default_name "CLOSE" data close_value in
      '(open_value, close_value, single) ← resolve open_value close_value;
      let required := assemble open_value close_value required in
      if negb (both_required open_value close_value required)
      then Err (ValueError no_name_message)
      else
        data ← validate_columns data (Some required) (s_optional asset_type);
        stamps ← match select "DATE" data with
                 | [] => Err (KeyError "DATE")
                 | selection => to_datetimes selection
                 end;
        let data := set_index stamps data in
        data ← drop "DATE" data;
        Ok {| data := Some data;
              open_value := Some open_value;
              close_value := Some close_value;
              single_valued := Some single |}
  end.

(** [self.data] read inside a method, with room for [depth] more calls
    before the interpreter's recursion limit. When the attribute was
    never assigned the lookup falls to [__getattr__], whose first action
    (line 175) is to read [self.data] again. Were that inner read to
    return, lines 175 to 180 would find no [data] on the frame and end in
    [AttributeError]. *)
Fixpoint self_data (depth : nat) (self : AssetData V) : result (DataFrame V) :=
  match data self with
  | Some df => Ok df
  | None =>
      match depth with
      | O => Err RecursionError
      | S depth' => _ ← self_data depth' self; Err (AttributeError "data")
      end
  end.

Definition __bool__ (depth : nat) (self : AssetData V) : result bool :=
  df ← self_data depth self;
  Ok (negb (empty df)).

(** [self.asof(date)]: the class defines no [asof], so [__getattr__]
    asks the frame, whose own [__getattr__] returns a column labelled
    [asof], which cannot be called, before it looks for the method. *)
Definition asof (depth : nat) (self : AssetData V) (date : Z)
    : result (list (string * cell V)) :=
  df ← self_data depth self;
  if bool_decide ("asof" ∈ pd.columns df) then Err TypeError
  else pd.asof df date.

(** [self[item]], lines 182 and 183, for a label [item]: the columns of the
    table under that label. *)
Definition __getitem__ (depth : nat) (self : AssetData V) (item : string)
    : result (list (list (cell V))) :=
  df ← self_data depth self;
  match select item df with
  | [] => Err (KeyError item)
  | selection => Ok selection
  end.

Definition pickle_path (key : string) : string :=
  "AlphaGradient/data/pickles/" ++ key ++ ".p".

Definition raw_path (key : string) : string :=
  "AlphaGradient/data/raw/" ++ key ++ ".csv".

(** [get_data(asset)], lines 28 to 54. [key] is [asset.key], [None] when
    the object has no such attribute, and [asset_type] stands for
    [asset.__class__]. [read_pickle] gives the outcome of
    [pd.read_pickle(path)], the object that was stored, and [read_table]
    the outcome of [pd.read_table(path, sep=',')]. *)
Definition get_data (to_datetimes : list (list (cell V)) -> result (list Z))
    (today : Z) (asset_type : Settings) (key : option string)
    (read_pickle : string -> result (option (RawData V)))
    (read_table : string -> result (DataFrame V))
    : result (option (AssetData V)) :=
  match key with
  | None => Err (AttributeError "key")
  | Some key =>
      let pickled :=
        data ← read_pickle (pickle_path key);
        __init__ to_datetimes today asset_type data None in
      match pickled with
      | Ok ds => Ok (Some ds)
      | Err FileNotFoundError =>
          let path := raw_path key in
          match __init__ to_datetimes today asset_type
                  (Some (ROther path (read_table path))) None with
          | Ok ds => Ok (Some ds)
          | Err FileNotFoundError => Ok None
          | Err e => Err e
          end
      | Err e => Err e
      end
  end.

(** *** The numeric case, for the statements below *)

(** The close name of line 92. *)
Definition numeric_close (asset_type : Settings) : string :=
  match PyStr.truthy_opt (s_close_value asset_type) with
  | Some c => c
  | None => "CLOSE"
  end.

(** The required names of line 83. *)
Definition numeric_required (asset_type : Settings) : list string :=
  map column_format (default [] (s_required asset_type)).

(** Columns of one row that all hold [v]. *)
Definition constant_columns (v : V) (labels : list string)
    : list (string * list (cell V)) :=
  map (fun l => (l, [Num v])) labels.

(** The table the numeric case ends with: one row dated [today], the
    close column and the required columns all holding [v]. *)
Definition numeric_table (today : Z) (asset_type : Settings) (v : V)
    : DataFrame V :=
  {| index := DatetimeIndex [today];
     series := constant_columns v
                 (column_format (numeric_close asset_type)
                    :: numeric_required asset_type) |}.

(** The frame of the numeric case after line 117. *)
Definition formatted_frame (today : Z) (asset_type : Settings) (v : V)
    : DataFrame V :=
  {| index := RangeIndex 1;
     series := ("DATE", [Stamp today])
       :: constant_columns v
            (column_format (numeric_close asset_type)
               :: numeric_required asset_type) |}.

(** A conversion to datetimes that agrees with [pd.DatetimeIndex] on a
    column of datetimes and gives up on anything else; it runs the
    constructor on the examples. *)
Definition stamps_only (selection : list (list (cell V))) : result (list Z) :=
  match selection with
  | [column] =>
      mapM (fun c => match c with Stamp t => Ok t | _ => Err TypeError end) column
  | _ => Err TypeError
  end.

End Dataset.

End Datatools.

(** ** [finance/asset.py] *)

Module Finance.

Import pd.

(** *** The enumeration [TYPES] *)

(** A Python object is named by an identifier. *)
Definition ident : Type := nat.

(** A member of [TYPES]: its name and its map of instances, the second
    component of its value. The map holds its values weakly, so it lists
    live objects only. *)
Record member : Type := {
  tag : string;
  instances : gmap string ident
}.

(** The enumeration as the module defines it: the member [UNDEFINED]. *)
Definition UNDEFINED : string := "UNDEFINED".

Definition TYPES_initial : list member :=
  [{| tag := UNDEFINED; instances := ∅ |}].

(** [extend_enum(TYPES, TYPE)]: a new member with a fresh, empty map. *)
Definition extend_enum (TYPES : list member) (TYPE : string) : list member :=
  (TYPES ++ [{| tag := TYPE; instances := ∅ |}])%list.

(** [TYPES[TYPE]] *)
Definition lookup_member (TYPES : list member) (TYPE : string) : result member :=
  match filter (fun x => tag x = TYPE) TYPES with
  | x :: _ => Ok x
  | [] => Err (KeyError TYPE)
  end.

(** [TYPES.__getitem__], lines 38 and 39: [self.value[1][item]]. *)
Definition member_getitem (x : member) (item : string) : result ident :=
  match instances x !! item with
  | Some this => Ok this
  | None => Err (KeyError item)
  end.

(** [Instances.__getattr__], lines 19 to 23, on the map of the member named
    [name]; the exception carries the message. *)
Definition Instances_getattr (name : string) (instances : gmap string ident)
    (item : string) : result ident :=
  match instances !! item with
  | Some this => Ok this
  | None =>
      Err (AttributeError ("Asset type '" ++ name ++ "' has no instance '"
                           ++ item ++ "'"))
  end.

(** An immediate parent in a class statement. *)
Inductive base : Type :=
| ABC
| Hidden
| Class (class_name : string).

#[global] Instance base_eq_dec : EqDecision base.
Proof. solve_decision. Defined.

(** A class statement deriving from [Asset]: the name, the immediate
    parents, and the tag [getattr(cls, 'type', None)] finds on the
    ancestors when the class has none of its own ([Asset] itself has no
    [type]). *)
Record declaration : Type := {
  __name__ : string;
  __bases__ : list base;
  inherited : option string
}.

(** Lines 64 to 71. The result is the enumeration and the tag stored in
    [cls.type]. A member of the enumeration is true, so line 71 runs only
    when the class has no tag at all. *)
Definition __init_subclass__ (TYPES : list member) (cls : declaration)
    : result (list member * string) :=
  let TYPE := PyStr.upper (__name__ cls) in
  '(TYPES, type) ←
    (if forallb (fun b => negb (bool_decide (b ∈ __bases__ cls))) [ABC; Hidden]
     then
       let TYPES :=
         if negb (bool_decide (TYPE ∈ map tag TYPES))
         then extend_enum TYPES TYPE else TYPES in
       x ← lookup_member TYPES TYPE;
       Ok (TYPES, Some (tag x))
     else Ok (TYPES, inherited cls));
  match type with
  | Some t => Ok (TYPES, t)
  | None => Ok (TYPES, UNDEFINED)
  end.

(** *** Construction of an asset, lines 77 to 90 *)

(** What can stand on either side of [+=] in line 88. *)
Inductive object : Type :=
| Instance (this : ident)
| ListOf (items : list ident).

(** [instances[name] = value] on a [WeakValueDictionary]: a list admits no
    weak reference. *)
Definition weak_setitem (name : string) (value : object)
    (instances : gmap string ident) : result (gmap string ident) :=
  match value with
  | Instance this => Ok (<[name := this]> instances)
  | ListOf _ => Err TypeError
  end.

(** [x += y]: a list is extended by an iterable; an asset is neither an
    iterable nor, by anything the base class defines, the left operand of
    an addition. *)
Definition iadd (x y : object) : result object :=
  match x, y with
  | ListOf l, ListOf l' => Ok (ListOf (l ++ l'))
  | ListOf _, Instance _ => Err TypeError
  | Instance _, _ => Err TypeError
  end.

Section Construction.
Context {V : Type}.

(** The attributes lines 77 to 79 assign; [None] before the assignment. *)
Record fresh : Type := {
  its_name : option string;
  its_price : option (value V);
  its_valuate_on : option string
}.

(** The object under construction and the instances of its type. *)
Record state : Type := {
  self : fresh;
  registered : gmap string ident
}.

(** A statement runs to its end or stops at an exception; either way
    it leaves a state. *)
Definition statement : Type := state -> state * option exn.

Definition sequence (s1 s2 : statement) : statement :=
  fun st =>
    match s1 st with
    | (st', None) => s2 st'
    | (st', Some e) => (st', Some e)
    end.

(** [datatools.AssetData.COLUMNS.CLOSE]: an attribute of the class
    [AssetData], then an attribute of that; the attributes of the class
    are functions, none of which has a [CLOSE]. *)
Definition COLUMNS_CLOSE : result string :=
  if bool_decide ("COLUMNS" ∈ Datatools.class_attributes)
  then Err (AttributeError "CLOSE")
  else Err (AttributeError "COLUMNS").

(** Line 77, [name] already a string. *)
Definition set_name (name : string) : statement :=
  fun st =>
    ({| self := {| its_name := Some name;
                   its_price := its_price (self st);
                   its_valuate_on := its_valuate_on (self st) |};
        registered := registered st |}, None).

(** Line 78; [zero] is the number 0. *)
Definition set_price (zero : V) (data : option (Datatools.RawData V)) : statement :=
  fun st =>
    let price :=
      match data with
      | Some (Datatools.RNumeric v) => Scalar (Num v)
      | _ => Scalar (Num zero)
      end in
    ({| self := {| its_name := its_name (self st);
                   its_price := Some price;
                   its_valuate_on := its_valuate_on (self st) |};
        registered := registered st |}, None).

(** Line 79. *)
Definition set_valuate_on : statement :=
  fun st =>
    match COLUMNS_CLOSE with
    | Ok marker =>
        ({| self := {| its_name := its_name (self st);
                       its_price := its_price (self st);
                       its_valuate_on := Some marker |};
            registered := registered st |}, None)
    | Err e => (st, Some e)
    end.

Definition store (name : string) (value : object) : statement :=
  fun st =>
    match weak_setitem name value (registered st) with
    | Ok instances => ({| self := self st; registered := instances |}, None)
    | Err e => (st, Some e)
    end.

(** The message of [AssetDuplicationError(self)], for the type [type]. *)
Definition duplication (type : string) : statement :=
  fun st =>
    match its_name (self st) with
    | Some name =>
        (st, Some (AssetDuplicationError
          ("Attempted duplication of " ++ name ++ " " ++ type ++
           ". Multiple instances of the same asset are not permitted")))
    | None => (st, Some (AttributeError "name"))
    end.

(** Lines 82 to 90, for the object [this] of the type [type]. *)
Definition register (type : string) (this : ident) (name : string)
    (allow_duplicates : bool) : statement :=
  fun st =>
    if negb (bool_decide (name ∈ dom (registered st))) then
      if allow_duplicates then store name (ListOf [this]) st
      else store name (Instance this) st
    else if allow_duplicates then
      match registered st !! name with
      | Some other =>
          match iadd (Instance other) (Instance this) with
          | Ok sum => store name sum st
          | Err e => (st, Some e)
          end
      | None => (st, Some (KeyError name))
      end
    else duplication type st.

(** Lines 77 to 90 of [Asset.__init__]. *)
Definition __init__ (zero : V) (type : string) (this : ident) (name : string)
    (data : option (Datatools.RawData V)) (allow_duplicates : bool) : statement :=
  sequence (set_name name)
    (sequence (set_price zero data)
       (sequence set_valuate_on
          (register type this name allow_duplicates))).

End Construction.

Arguments fresh V : clear implicits.
Arguments state V : clear implicits.
Arguments statement V : clear implicits.

(** *** Valuation *)

(** The attributes of a constructed asset; line 93 stores a datetime. *)
Record Asset (V : Type) : Type := {
  name : string;
  price : value V;
  valuate_on : string;
  date : Z;
  data : Datatools.AssetData V
}.

Arguments name {V} _.
Arguments price {V} _.
Arguments valuate_on {V} _.
Arguments date {V} _.
Arguments data {V} _.

(** The [date] argument of [valuate]. *)
Inductive date_input : Type :=
| NoDate
| DateString (s : string)
| Datetime (d : Z)
| OtherDate.

Section Valuation.
Context {V : Type}.
(** [datetime.fromisoformat], [None] where it raises. *)
Variable fromisoformat : string -> option Z.
(** The formula of the concrete class, which may update the object. *)
Variable _valuate : Asset V -> result (Asset V * value V).
(** Room left under the interpreter's recursion limit. *)
Variable depth : nat.

Definition _normalize_date_input (self : Asset V) (date : date_input) : result Z :=
  match date with
  | NoDate => Ok (Finance.date self)
  | DateString s =>
      match fromisoformat s with
      | Some d => Ok d
      | None => Err (ValueError ("Invalid isoformat string: " ++ PyStr.repr s))
      end
  | Datetime d => Ok d
  | OtherDate => Err TypeError
  end.

Definition set_current_price (self : Asset V) (p : value V) : Asset V :=
  {| name := name self; price := p; valuate_on := valuate_on self;
     date := Finance.date self; data := data self |}.

Definition _data_valuate (self : Asset V) (date : date_input)
    : result (Asset V * value V) :=
  date ← _normalize_date_input self date;
  row ← Datatools.asof depth (data self) date;
  p ← getitem row (valuate_on self);
  Ok (set_current_price self p, p).

(** The body of the abstract method, line 143. *)
Definition base_valuate (self : Asset V) : result (Asset V * value V) :=
  Ok (self, price self).

Definition valuate (self : Asset V) (date : date_input)
    : result (Asset V * value V) :=
  date ← _normalize_date_input self date;
  nonempty ← Datatools.__bool__ depth (data self);
  if (nonempty : bool) then _data_valuate self (Datetime date)
  else _valuate self.

End Valuation.

End Finance.

(** ** Concrete inputs *)

Module Examples.

Import pd.

(** Asset types. *)
Definition open_type : Datatools.Settings :=
  {| Datatools.s_required := None; Datatools.s_optional := None;
     Datatools.s_close_value := None; Datatools.s_open_value := Some "OPEN" |}.

Definition adjusted_type : Datatools.Settings :=
  {| Datatools.s_required := Some ["volume"]; Datatools.s_optional := None;
     Datatools.s_close_value := Some "adj close";
     Datatools.s_open_value := None |}.

Definition priced_type : Datatools.Settings :=
  {| Datatools.s_required := None; Datatools.s_optional := None;
     Datatools.s_close_value := Some "price"; Datatools.s_open_value := None |}.

Definition opening_type : Datatools.Settings :=
  {| Datatools.s_required := None; Datatools.s_optional := None;
     Datatools.s_close_value := None; Datatools.s_open_value := Some "price" |}.

(** Tables. *)
Definition quotes : DataFrame Z :=
  {| index := RangeIndex 2;
     series := [("date", [Stamp 10; Stamp 20]); ("price", [Num 7%Z; Num 9%Z])] |}.

Definition sparse : DataFrame Z :=
  {| index := RangeIndex 1;
     series := [("CLOSE", [Num 7%Z]); ("EXTRA", [Num 1%Z]); ("JUNK", [NaN])] |}.

Definition one_day : DataFrame Z :=
  {| index := DatetimeIndex [10%Z]; series := [("CLOSE", [Num 7%Z])] |}.

Definition two_days : DataFrame Z :=
  {| index := DatetimeIndex [10%Z; 20%Z];
     series := [("CLOSE", [Num 7%Z; Num 9%Z]); ("VOLUME", [Num 1%Z; Num 2%Z])] |}.

Definition dataset_of (table : DataFrame Z) : Datatools.AssetData Z :=
  {| Datatools.data := Some table;
     Datatools.open_value := Some "CLOSE";
     Datatools.close_value := Some "CLOSE";
     Datatools.single_valued := Some true |}.

(** Assets. *)
Definition asset_of (table : DataFrame Z) : Finance.Asset Z :=
  {| Finance.name := "AAPL"; Finance.price := Scalar (Num 0%Z);
     Finance.valuate_on := "CLOSE"; Finance.date := 15%Z;
     Finance.data := dataset_of table |}.

(** A parser that accepts no string; the examples pass datetimes. *)
Definition no_iso (s : string) : option Z := None.

(** The recursion limit of the interpreter, by default. *)
Definition limit : nat := 1000.

(** Classes. *)
Definition stock_class : Finance.declaration :=
  {| Finance.__name__ := "Stock";
     Finance.__bases__ := [Finance.Class "Asset"];
     Finance.inherited := None |}.

Definition hidden_class : Finance.declaration :=
  {| Finance.__name__ := "Draft";
     Finance.__bases__ := [Finance.Class "Asset"; Finance.Hidden];
     Finance.inherited := None |}.

(** More asset types, tables and classes. *)
Definition bar_type : Datatools.Settings :=
  {| Datatools.s_required := Some ["volume"]; Datatools.s_optional := None;
     Datatools.s_close_value := Some "close";
     Datatools.s_open_value := Some "open" |}.

Definition bare_type : Datatools.Settings :=
  {| Datatools.s_required := None; Datatools.s_optional := None;
     Datatools.s_close_value := None; Datatools.s_open_value := None |}.

Definition cluttered : DataFrame Z :=
  {| index := RangeIndex 1;
     series := [("CLOSE", [Num 7%Z]); ("JUNK", [NaN]); ("JUNK", [NaN])] |}.

Definition bars : DataFrame Z :=
  {| index := RangeIndex 2;
     series := [("date", [Stamp 10; Stamp 20]); ("open", [Num 6%Z; Num 8%Z]);
                ("close", [Num 7%Z; Num 9%Z])] |}.

Definition gappy : DataFrame Z :=
  {| index := DatetimeIndex [10%Z; 20%Z; 30%Z];
     series := [("CLOSE", [Num 7%Z; Num 9%Z; NaN])] |}.

Definition shuffled : DataFrame Z :=
  {| index := DatetimeIndex [20%Z; 10%Z];
     series := [("CLOSE", [Num 9%Z; Num 7%Z])] |}.

Definition volumes : DataFrame Z :=
  {| index := DatetimeIndex [10%Z; 20%Z];
     series := [("VOLUME", [Num 1%Z; Num 2%Z])] |}.

Definition shouting_class : Finance.declaration :=
  {| Finance.__name__ := "STOCK";
     Finance.__bases__ := [Finance.Class "Asset"];
     Finance.inherited := None |}.

(** The datasets the constructor makes of [quotes] for [priced_type], and
    of [bars] and of [two_days] for [bare_type]. *)
Definition priced_dataset : Datatools.AssetData Z :=
  {| Datatools.data :=
       Some {| index := DatetimeIndex [10%Z; 20%Z];
               series := [("PRICE", [Num 7%Z; Num 9%Z])] |};
     Datatools.open_value := Some "PRICE";
     Datatools.close_value := Some "PRICE";
     Datatools.single_valued := Some true |}.

Definition bars_dataset : Datatools.AssetData Z :=
  {| Datatools.data :=
       Some {| index := DatetimeIndex [10%Z; 20%Z];
               series := [("OPEN", [Num 6%Z; Num 8%Z]);
                          ("CLOSE", [Num 7%Z; Num 9%Z])] |};
     Datatools.open_value := Some "OPEN";
     Datatools.close_value := Some "CLOSE";
     Datatools.single_valued := Some false |}.

Definition closes_dataset : Datatools.AssetData Z :=
  {| Datatools.data :=
       Some {| index := DatetimeIndex [10%Z; 20%Z];
               series := [("CLOSE", [Num 7%Z; Num 9%Z])] |};
     Datatools.open_value := Some "CLOSE";
     Datatools.close_value := Some "CLOSE";
     Datatools.single_valued := Some true |}.

(** File systems: no file at all; a pickle that holds a table; a raw file
    that cannot be parsed. *)
Definition no_pickle (path : string) : result (option (Datatools.RawData Z)) :=
  Err FileNotFoundError.

Definition no_table (path : string) : result (DataFrame Z) :=
  Err FileNotFoundError.

Definition pickled_table (path : string) : result (option (Datatools.RawData Z)) :=
  Ok (Some (Datatools.RFrame two_days)).

Definition garbled_table (path : string) : result (DataFrame Z) :=
  Err (ValueError "garbled").

(** An object with its name assigned and no instance of its type yet. *)
Definition first_state : Finance.state Z :=
  {| Finance.self := {| Finance.its_name := Some "AAPL";
                        Finance.its_price := None;
                        Finance.its_valuate_on := None |};
     Finance.registered := ∅ |}.

End Examples.

(** * Properties *)

(** ** Strings *)

Module PyStrFacts.

Import PyStr.

Lemma format_char_idempotent (c : ascii) :
  upper_char (underscore (upper_char (underscore c)))
  = upper_char (underscore c).
Proof. destruct c as [[] [] [] [] [] [] [] []]; reflexivity. Qed.

Lemma column_format_idempotent (s : string) :
  Datatools.column_format (Datatools.column_format s) = Datatools.column_format s.
Proof.
  unfold Datatools.column_format, upper.
  induction s as [|c s IH]; simpl; [reflexivity|].
  rewrite format_char_idempotent. f_equal. exact IH.
Qed.

Lemma truthy_column_format (s : string) :
  truthy (Datatools.column_format s) = truthy s.
Proof. destruct s; reflexivity. Qed.

Lemma truthy_opt_Some (o : option string) (s : string) :
  truthy_opt o = Some s -> o = Some s /\ truthy s = true.
Proof.
  destruct o as [s'|]; simpl; [|discriminate].
  destruct (truthy s') eqn:E; [|discriminate].
  intros [= <-]. split; [reflexivity|exact E].
Qed.

Lemma truth_false (o : option string) :
  truth o = false <-> truthy_opt o = None.
Proof.
  unfold truth. destruct (truthy_opt o); split; intros; congruence.
Qed.

Lemma append_assoc (a b c : string) : (a ++ b) ++ c = a ++ (b ++ c).
Proof.
  induction a as [|x a IH]; [reflexivity|].
  change (String x ((a ++ b) ++ c) = String x (a ++ (b ++ c))).
  f_equal. exact IH.
Qed.

Lemma occurs_refl (s : string) : occurs s s.
Proof.
  exists EmptyString, EmptyString.
  change (s = s ++ EmptyString).
  induction s as [|x s IH]; [reflexivity|].
  change (String x s = String x (s ++ EmptyString)).
  f_equal. exact IH.
Qed.

Lemma occurs_prepend (needle pre hay : string) :
  occurs needle hay -> occurs needle (pre ++ hay).
Proof.
  intros (p & q & ->). exists (pre ++ p), q. by rewrite append_assoc.
Qed.

Lemma occurs_append (needle hay post : string) :
  occurs needle hay -> occurs needle (hay ++ post).
Proof.
  intros (p & q & ->). exists p, (q ++ post).
  by rewrite !append_assoc.
Qed.

(** Every item of a list is shown in [str(l)[1:-1]]. *)
Lemma list_body_shows (l : list string) (c : string) :
  c ∈ l -> occurs (repr c) (list_body l).
Proof.
  unfold list_body. induction l as [|x l IH]; intros Hin.
  - by apply elem_of_nil in Hin.
  - apply elem_of_cons in Hin as [->|Hin].
    + destruct l as [|y l]; simpl.
      * apply occurs_refl.
      * apply occurs_append, occurs_refl.
    + destruct l as [|y l]; [by apply elem_of_nil in Hin|].
      change (String.concat ", " (map repr (x :: y :: l)))
        with (repr x ++ ", " ++ String.concat ", " (map repr (y :: l))).
      apply occurs_prepend, (occurs_prepend _ ", "), IH, Hin.
Qed.

End PyStrFacts.

(** ** The dataset constructor *)

Module DatatoolsFacts.

Import pd Datatools PyStrFacts.

Section Lists.
Context {A : Type} (P : A -> Prop) `{!forall x, Decision (P x)}.

Lemma filter_none (l : list A) :
  (forall x, x ∈ l -> ~ P x) -> filter P l = [].
Proof.
  induction l as [|a l IH]; intros Hall; [reflexivity|].
  rewrite filter_cons_False by (apply Hall; left).
  apply IH. intros x Hx. apply Hall. by right.
Qed.

Lemma filter_all (l : list A) :
  (forall x, x ∈ l -> P x) -> filter P l = l.
Proof.
  induction l as [|a l IH]; intros Hall; [reflexivity|].
  rewrite filter_cons_True by (apply Hall; left).
  f_equal. apply IH. intros x Hx. apply Hall. by right.
Qed.

End Lists.

Section Resolution.
Context {V : Type}.

(** The names the resolution returns are strings that are not empty. *)
Lemma resolve_truthy (open_value close_value : option string)
    (o c : string) (single : bool) :
  resolve open_value close_value = Ok (o, c, single) ->
  PyStr.truthy o = true /\ PyStr.truthy c = true.
Proof.
  unfold resolve.
  destruct (PyStr.truthy_opt close_value) as [c0|] eqn:Hc;
    destruct (PyStr.truthy_opt open_value) as [o0|] eqn:Ho;
    intros [= <- <- <-] || discriminate;
    repeat match goal with
           | H : PyStr.truthy_opt _ = Some _ |- _ =>
               apply truthy_opt_Some in H as [_ H]
           end;
    rewrite !truthy_column_format; auto.
Qed.

Lemma resolve_close_only (open_value close_value : option string) (c : string) :
  PyStr.truthy_opt close_value = Some c ->
  PyStr.truth open_value = false ->
  resolve open_value close_value
  = Ok (column_format c, column_format c, true).
Proof.
  intros Hc Ho. apply truth_false in Ho. unfold resolve.
  by rewrite Hc, Ho.
Qed.

Lemma resolve_open_only (open_value close_value : option string) (o : string) :
  PyStr.truthy_opt open_value = Some o ->
  PyStr.truth close_value = false ->
  resolve open_value close_value
  = Ok (column_format o, column_format o, true).
Proof.
  intros Ho Hc. apply truth_false in Hc. unfold resolve.
  by rewrite Hc, Ho.
Qed.

(** What a construction that succeeds stores is what the resolution
    returned. *)
Lemma init_stores_resolution
    (to_datetimes : list (list (cell V)) -> result (list Z)) (today : Z)
    (asset_type : Settings) (raw : RawData V) (columns : option (list string))
    (df : DataFrame V) (required : list string) (close_value : option string)
    (o c : string) (single : bool) (ds : AssetData V) :
  acquire today raw columns
    (map column_format (default [] (s_required asset_type)))
    (s_close_value asset_type) = Ok (df, required, close_value) ->
  resolve
    (default_name "OPEN" (rename column_format (date_from_index df))
       (s_open_value asset_type))
    (default_name "CLOSE" (rename column_format (date_from_index df))
       close_value) = Ok (o, c, single) ->
  __init__ to_datetimes today asset_type (Some raw) columns = Ok ds ->
  Datatools.open_value ds = Some o /\ Datatools.close_value ds = Some c
  /\ single_valued ds = Some single.
Proof.
  intros Hacq Hres. unfold __init__. rewrite Hacq. simpl.
  rewrite Hres. simpl.
  destruct (negb _); [discriminate|].
  destruct (validate_columns _ _ _) as [data1|]; [simpl|discriminate].
  destruct (match select "DATE" data1 with [] => _ | _ => _ end) as [stamps|];
    [simpl|discriminate].
  destruct (drop _ _) as [data2|]; [simpl|discriminate].
  intros [= <-]. auto.
Qed.

(** C8. When, after the defaults of lines 120 and 121, only a close
    name is known, the resolution formats it, takes it for the open
    name as well and marks the dataset single-valued; a construction
    that then succeeds stores exactly that. The same holds with open
    and close exchanged. *)
Theorem single_name_resolution
    (to_datetimes : list (list (cell V)) -> result (list Z)) (today : Z)
    (asset_type : Settings) (raw : RawData V) (columns : option (list string))
    (df : DataFrame V) (required : list string) (close_value : option string) :
  acquire today raw columns
    (map column_format (default [] (s_required asset_type)))
    (s_close_value asset_type) = Ok (df, required, close_value) ->
  let data := rename column_format (date_from_index df) in
  let open_known := default_name "OPEN" data (s_open_value asset_type) in
  let close_known := default_name "CLOSE" data close_value in
  (forall c : string,
      PyStr.truthy_opt close_known = Some c ->
      PyStr.truth open_known = false ->
      resolve open_known close_known
      = Ok (column_format c, column_format c, true)
      /\ forall ds : AssetData V,
          __init__ to_datetimes today asset_type (Some raw) columns = Ok ds ->
          Datatools.close_value ds = Some (column_format c)
          /\ Datatools.open_value ds = Datatools.close_value ds
          /\ single_valued ds = Some true)
  /\ (forall o : string,
      PyStr.truthy_opt open_known = Some o ->
      PyStr.truth close_known = false ->
      resolve open_known close_known
      = Ok (column_format o, column_format o, true)
      /\ forall ds : AssetData V,
          __init__ to_datetimes today asset_type (Some raw) columns = Ok ds ->
          Datatools.open_value ds = Some (column_format o)
          /\ Datatools.close_value ds = Datatools.open_value ds
          /\ single_valued ds = Some true).
Proof.
  intros Hacq data open_known close_known. split.
  - intros c Hc Ho.
    pose proof (resolve_close_only _ _ _ Hc Ho) as Hres.
    split; [exact Hres|]. intros ds Hds.
    destruct (init_stores_resolution _ _ _ _ _ _ _ _ _ _ _ _ Hacq Hres Hds)
      as (Hopen & Hclose & Hsingle).
    by rewrite Hopen, Hclose, Hsingle.
  - intros o Ho Hc.
    pose proof (resolve_open_only _ _ _ Ho Hc) as Hres.
    split; [exact Hres|]. intros ds Hds.
    destruct (init_stores_resolution _ _ _ _ _ _ _ _ _ _ _ _ Hacq Hres Hds)
      as (Hopen & Hclose & Hsingle).
    by rewrite Hopen, Hclose, Hsingle.
Qed.

(** The names of line 161 are in the list the lines before assembled. *)
Lemma assemble_has_names (o c : string) (required : list string) :
  PyStr.truthy o = true -> PyStr.truthy c = true ->
  o ∈ assemble o c required /\ c ∈ assemble o c required.
Proof.
  intros Ho Hc. unfold assemble. rewrite Ho, Hc.
  split; apply elem_of_elements, elem_of_list_to_set; set_solver.
Qed.

Lemma assemble_spec (o c : string) (required : list string) (x : string) :
  PyStr.truthy o = true -> PyStr.truthy c = true ->
  x ∈ assemble o c required <-> x = "DATE" \/ x = o \/ x = c \/ x ∈ required.
Proof.
  intros Ho Hc. unfold assemble. rewrite Ho, Hc.
  rewrite elem_of_elements, elem_of_list_to_set. set_solver.
Qed.

Lemma both_required_assembled (o c : string) (required : list string) :
  PyStr.truthy o = true -> PyStr.truthy c = true ->
  both_required o c (assemble o c required) = true.
Proof.
  intros Ho Hc.
  destruct (assemble_has_names o c required Ho Hc) as [Hin_o Hin_c].
  unfold both_required. simpl.
  rewrite !bool_decide_eq_true_2 by assumption. reflexivity.
Qed.

(** C10. Once the resolution of lines 124 to 142 has returned, the test
    of line 161 on the assembled list holds, whatever the required list
    was: the error of line 162 cannot be raised. *)
Theorem defensive_check_holds (open_value close_value : option string)
    (required : list string) (o c : string) (single : bool) :
  resolve open_value close_value = Ok (o, c, single) ->
  both_required o c (assemble o c required) = true.
Proof.
  intros Hres. apply resolve_truthy in Hres as [Ho Hc].
  by apply both_required_assembled.
Qed.

End Resolution.

Section Validation.
Context {V : Type}.

Lemma elem_of_keys (l : list string) (x : string) : x ∈ keys l <-> x ∈ l.
Proof.
  induction l as [|c l IH]; simpl; [reflexivity|].
  rewrite !elem_of_cons, list_elem_of_filter, IH.
  destruct (decide (x = c)); tauto.
Qed.

Lemma elem_of_map (f : string -> string) (l : list string) (y : string) :
  y ∈ map f l <-> exists x, y = f x /\ x ∈ l.
Proof. apply (list_elem_of_fmap f l y). Qed.

Lemma elem_of_to_dict (l : list string) (x : string) :
  x ∈ to_dict l <-> exists r, x = column_format r /\ r ∈ l.
Proof. unfold to_dict. by rewrite elem_of_keys, elem_of_map. Qed.

(** The loop of lines 263 to 265 raises nothing but [KeyError]. *)
Lemma drop_unlisted_error (todo listed : list string) (data : DataFrame V)
    (e : exn) :
  drop_unlisted todo listed data = Err e -> exists k, e = KeyError k.
Proof.
  revert data. induction todo as [|column todo IH]; intros data; simpl.
  - discriminate.
  - destruct (bool_decide (column ∈ listed)); [apply IH|].
    unfold drop. destruct (bool_decide (column ∈ columns data)); simpl.
    + apply IH.
    + intros [= <-]. by exists column.
Qed.

(** The loop leaves a frame alone when every label is listed. *)
Lemma drop_unlisted_all_listed (todo listed : list string) (data : DataFrame V) :
  (forall c, c ∈ todo -> c ∈ listed) ->
  drop_unlisted todo listed data = Ok data.
Proof.
  induction todo as [|column todo IH]; intros Hall; simpl; [reflexivity|].
  rewrite bool_decide_eq_true_2 by (apply Hall; left).
  apply IH. intros c Hc. apply Hall. by right.
Qed.

(** C3. When a required column, under its formatted name, is not a
    column of the table, [validate_columns] raises the [ValueError] of
    line 252, and the message shows every required column that is not
    in the table, whatever the optional specification and the other
    columns of the table are. When every required column is in the
    table, [validate_columns] raises no [ValueError]. *)
Theorem validate_columns_missing (data : DataFrame V)
    (required optional : option (list string)) :
  ((exists r, r ∈ default [] required /\ column_format r ∉ columns data) ->
   exists msg,
     validate_columns data required optional = Err (ValueError msg)
     /\ forall r, r ∈ default [] required ->
                  column_format r ∉ columns data ->
                  PyStr.occurs (PyStr.repr (column_format r)) msg)
  /\ ((forall r, r ∈ default [] required -> column_format r ∈ columns data) ->
      forall msg, validate_columns data required optional <> Err (ValueError msg)).
Proof.
  unfold validate_columns.
  set (unsatisfied :=
         filter (fun column => column ∉ columns data)
                (to_dict (default [] required))).
  assert (Hin : forall r, r ∈ default [] required ->
                          column_format r ∉ columns data ->
                          column_format r ∈ unsatisfied).
  { intros r Hr Hnot. apply list_elem_of_filter. split; [exact Hnot|].
    apply elem_of_to_dict. by exists r. }
  split.
  - intros (r & Hr & Hnot).
    destruct (decide (unsatisfied = [])) as [Hnil|Hne].
    + specialize (Hin r Hr Hnot). rewrite Hnil in Hin.
      by apply elem_of_nil in Hin.
    + rewrite bool_decide_eq_false_2 by exact Hne. simpl.
      eexists. split; [reflexivity|].
      intros r' Hr' Hnot'.
      apply occurs_prepend, list_body_shows, Hin; assumption.
  - intros Hall msg.
    assert (Hnil : unsatisfied = []).
    { destruct unsatisfied as [|x l] eqn:E; [reflexivity|].
      assert (Hx : x ∈ unsatisfied) by (rewrite E; left).
      apply list_elem_of_filter in Hx as [Hnot Hx].
      apply elem_of_to_dict in Hx as (r & -> & Hr).
      destruct Hnot. by apply Hall. }
    rewrite bool_decide_eq_true_2 by exact Hnil. simpl.
    intros Hdrop. apply drop_unlisted_error in Hdrop as [k [=]].
Qed.

End Validation.

Section Truthiness.
Context {V : Type}.

(** A dataset whose table was assigned reads it back at once. *)
Lemma self_data_assigned (depth : nat) (self : AssetData V) (df : DataFrame V) :
  data self = Some df -> self_data depth self = Ok df.
Proof. intros H. destruct depth; simpl; by rewrite H. Qed.

(** A dataset whose table was never assigned cannot read it, however
    deep the interpreter lets the lookups nest. *)
Lemma self_data_unassigned (depth : nat) (self : AssetData V) :
  data self = None -> self_data depth self = Err RecursionError.
Proof.
  intros H. induction depth as [|depth IH]; simpl; rewrite H;
    [reflexivity|]. by rewrite IH.
Qed.

(** The truth value of a dataset that has a table: the table is not
    empty. *)
Lemma bool_of_table (depth : nat) (self : AssetData V) (df : DataFrame V) :
  data self = Some df -> __bool__ depth self = Ok (negb (empty df)).
Proof.
  intros H. unfold __bool__. by rewrite (self_data_assigned _ _ _ H).
Qed.

(** X27. A dataset constructed from data other than [None] has its table
    assigned, and its truth test returns, at any recursion depth, that the
    table is not empty. *)
Lemma bool_of_constructed
    (to_datetimes : list (list (cell V)) -> result (list Z)) (today : Z)
    (asset_type : Settings) (raw : RawData V) (columns : option (list string))
    (ds : AssetData V) (depth : nat) :
  __init__ to_datetimes today asset_type (Some raw) columns = Ok ds ->
  exists df, data ds = Some df /\ __bool__ depth ds = Ok (negb (empty df)).
Proof.
  unfold __init__.
  destruct (acquire _ _ _ _ _) as [[[df0 required] close]|]; [simpl|discriminate].
  destruct (resolve _ _) as [[[o c] single]|]; [simpl|discriminate].
  destruct (negb _); [discriminate|].
  destruct (validate_columns _ _ _) as [data1|]; [simpl|discriminate].
  destruct (match select "DATE" data1 with [] => _ | _ => _ end) as [stamps|];
    [simpl|discriminate].
  destruct (drop _ _) as [data2|]; [simpl|discriminate].
  intros [= <-]. exists data2. split; [reflexivity|].
  by apply bool_of_table.
Qed.

(** C7, at the input the code fails on. A dataset constructed from
    [None] is returned with no attribute assigned, and its truth value
    is not false: the test raises [RecursionError], for every asset type
    and every recursion limit. *)
Theorem bool_of_absent_data
    (to_datetimes : list (list (cell V)) -> result (list Z)) (today : Z)
    (asset_type : Settings) (columns : option (list string)) (depth : nat) :
  exists ds : AssetData V,
    __init__ to_datetimes today asset_type None columns = Ok ds
    /\ data ds = None
    /\ __bool__ depth ds = Err RecursionError.
Proof.
  exists blank. split; [reflexivity|]. split; [reflexivity|].
  unfold __bool__. by rewrite self_data_unassigned.
Qed.

End Truthiness.

Section Numeric.
Context {V : Type}.

Lemma numeric_close_truthy (asset_type : Settings) :
  PyStr.truthy (numeric_close asset_type) = true.
Proof.
  unfold numeric_close.
  destruct (PyStr.truthy_opt _) as [c|] eqn:E; [|reflexivity].
  by apply truthy_opt_Some in E as [_ E].
Qed.

Lemma one_row_constant (v : V) (labels : list string) :
  zip_with (fun l c => (l, [c])) labels (replicate (length labels) (Num v))
  = constant_columns v labels.
Proof.
  induction labels as [|l labels IH]; simpl; [reflexivity|]. by rewrite IH.
Qed.

Lemma acquire_numeric (today : Z) (asset_type : Settings) (v : V)
    (columns : option (list string)) :
  acquire today (RNumeric v) columns (numeric_required asset_type)
    (s_close_value asset_type)
  = Ok ({| index := RangeIndex 1;
           series := ("DATE", [Stamp today])
             :: constant_columns v
                  (numeric_close asset_type :: numeric_required asset_type) |},
        "DATE" :: numeric_close asset_type :: numeric_required asset_type,
        Some (numeric_close asset_type)).
Proof.
  unfold acquire, one_row. fold (numeric_close asset_type).
  rewrite Nat.add_1_r. simpl. by rewrite one_row_constant.
Qed.

Lemma numeric_required_formatted (asset_type : Settings) (r : string) :
  r ∈ numeric_required asset_type -> column_format r = r.
Proof.
  unfold numeric_required. intros Hr.
  apply elem_of_map in Hr as (x & -> & _).
  apply column_format_idempotent.
Qed.

Lemma columns_constant (v : V) (labels : list string) :
  map fst (constant_columns v labels) = labels.
Proof.
  induction labels as [|l labels IH]; simpl; [reflexivity|]. by rewrite IH.
Qed.

Lemma rename_constant (v : V) (labels : list string) :
  (forall l, l ∈ labels -> column_format l = l) ->
  map (fun col : string * list (cell V) => (column_format col.1, col.2))
      (constant_columns v labels)
  = constant_columns v labels.
Proof.
  induction labels as [|l labels IH]; intros Hfix; simpl; [reflexivity|].
  rewrite (Hfix l) by left. rewrite IH; [reflexivity|].
  intros l' Hl'. apply Hfix. by right.
Qed.

Lemma columns_formatted_frame (today : Z) (asset_type : Settings) (v : V) :
  columns (formatted_frame today asset_type v)
  = "DATE" :: column_format (numeric_close asset_type)
      :: numeric_required asset_type.
Proof.
  unfold columns, formatted_frame.
  cbn [series map fst]. by rewrite columns_constant.
Qed.

Lemma date_rename_numeric (today : Z) (asset_type : Settings) (v : V) :
  rename column_format
    (date_from_index
       {| index := RangeIndex 1;
          series := ("DATE", [Stamp today])
            :: constant_columns v
                 (numeric_close asset_type :: numeric_required asset_type) |})
  = formatted_frame today asset_type v.
Proof.
  unfold date_from_index, rename, formatted_frame.
  cbn [index series map constant_columns fst snd].
  f_equal. f_equal. f_equal.
  apply (rename_constant v (numeric_required asset_type)).
  apply numeric_required_formatted.
Qed.

Lemma resolve_numeric (today : Z) (asset_type : Settings) (v : V) :
  (forall o, PyStr.truthy_opt (s_open_value asset_type) = Some o ->
             column_format o ∈ column_format (numeric_close asset_type)
                                :: numeric_required asset_type) ->
  exists (o : string) (single : bool),
    resolve
      (default_name "OPEN" (formatted_frame today asset_type v)
         (s_open_value asset_type))
      (default_name "CLOSE" (formatted_frame today asset_type v)
         (Some (numeric_close asset_type)))
    = Ok (o, column_format (numeric_close asset_type), single)
    /\ o ∈ columns (formatted_frame today asset_type v)
    /\ column_format o = o.
Proof.
  intros Hopen.
  pose proof (numeric_close_truthy asset_type) as Hc.
  assert (Hck : default_name "CLOSE" (formatted_frame today asset_type v)
                  (Some (numeric_close asset_type))
                = Some (numeric_close asset_type)).
  { unfold default_name, PyStr.truth, PyStr.truthy_opt. rewrite Hc.
    by rewrite andb_false_r. }
  rewrite Hck. unfold resolve.
  assert (Hct : PyStr.truthy_opt (Some (numeric_close asset_type))
                = Some (numeric_close asset_type)).
  { unfold PyStr.truthy_opt. by rewrite Hc. }
  rewrite Hct. rewrite columns_formatted_frame.
  unfold default_name. rewrite columns_formatted_frame.
  unfold PyStr.truth.
  destruct (PyStr.truthy_opt (s_open_value asset_type)) as [o|] eqn:Ho.
  - rewrite andb_false_r, Ho.
    exists (column_format o), false. split; [reflexivity|].
    split; [right; by apply Hopen|apply column_format_idempotent].
  - rewrite andb_true_r.
    destruct (bool_decide _) eqn:Hin.
    + apply bool_decide_eq_true_1 in Hin.
      exists "OPEN", false. change (PyStr.truthy_opt (Some "OPEN")) with (Some "OPEN").
      split; [reflexivity|]. split; [exact Hin|reflexivity].
    + rewrite Ho.
      exists (column_format (numeric_close asset_type)), true.
      split; [reflexivity|].
      split; [right; left|apply column_format_idempotent].
Qed.

Lemma validate_numeric (today : Z) (asset_type : Settings) (v : V) (o : string) :
  PyStr.truthy o = true ->
  o ∈ columns (formatted_frame today asset_type v) ->
  column_format o = o ->
  validate_columns (formatted_frame today asset_type v)
    (Some (assemble o (column_format (numeric_close asset_type))
             ("DATE" :: numeric_close asset_type
                :: numeric_required asset_type)))
    (s_optional asset_type)
  = Ok (formatted_frame today asset_type v).
Proof.
  intros Ho Hin Hfix.
  pose proof (numeric_close_truthy asset_type) as Hc.
  rewrite <- truthy_column_format in Hc.
  set (F := formatted_frame today asset_type v) in *.
  set (R := assemble _ _ _).
  assert (HR : forall x, x ∈ R <->
             x = "DATE" \/ x = o
             \/ x = column_format (numeric_close asset_type)
             \/ x ∈ "DATE" :: numeric_close asset_type
                      :: numeric_required asset_type).
  { intros x. subst R. by apply assemble_spec. }
  assert (Hcols : columns F = "DATE" :: column_format (numeric_close asset_type)
                                :: numeric_required asset_type)
    by apply columns_formatted_frame.
  assert (Hsat : forall r, r ∈ R -> column_format r ∈ columns F).
  { intros r Hr. apply HR in Hr. rewrite Hcols.
    destruct Hr as [->|[->|[->|Hr]]].
    - left.
    - rewrite Hfix. by rewrite <- Hcols.
    - rewrite column_format_idempotent. right; left.
    - apply elem_of_cons in Hr as [->|Hr]; [left|].
      apply elem_of_cons in Hr as [->|Hr]; [right; left|].
      rewrite (numeric_required_formatted _ _ Hr). by do 2 right. }
  unfold validate_columns. cbn [default].
  rewrite filter_none; cycle 1.
  { intros x Hx Hnot. apply elem_of_to_dict in Hx as (r & -> & Hr).
    by apply Hnot, Hsat. }
  rewrite bool_decide_eq_true_2 by reflexivity. cbn [negb].
  apply drop_unlisted_all_listed. intros c Hc'.
  apply elem_of_app. left. apply elem_of_to_dict.
  rewrite Hcols in Hc'.
  apply elem_of_cons in Hc' as [->|Hc']; [exists "DATE"; split; [reflexivity|]; apply HR; by left|].
  apply elem_of_cons in Hc' as [->|Hc'].
  - exists (numeric_close asset_type). split; [reflexivity|].
    apply HR. do 3 right. right; left.
  - exists c. split; [symmetry; by apply (numeric_required_formatted asset_type)|].
    apply HR. do 3 right. by do 2 right.
Qed.

Lemma label_of_constant (v : V) (labels : list string)
    (col : string * list (cell V)) :
  col ∈ constant_columns v labels -> col.1 ∈ labels.
Proof.
  unfold constant_columns. intros Hcol.
  apply (list_elem_of_fmap (fun l => (l, [Num v]))) in Hcol as (l & -> & Hl).
  exact Hl.
Qed.

Lemma select_DATE_numeric (today : Z) (asset_type : Settings) (v : V) :
  column_format (numeric_close asset_type) <> "DATE" ->
  "DATE" ∉ numeric_required asset_type ->
  select "DATE" (formatted_frame today asset_type v) = [[Stamp today]].
Proof.
  intros Hclose Hreq. unfold select, formatted_frame. cbn [series].
  rewrite filter_cons_True by reflexivity.
  rewrite filter_none; [reflexivity|].
  intros col Hcol Hlabel. apply label_of_constant in Hcol.
  rewrite Hlabel in Hcol.
  apply elem_of_cons in Hcol as [Heq|Hin]; [by apply Hclose|by apply Hreq].
Qed.

Lemma drop_DATE_numeric (today : Z) (asset_type : Settings) (v : V) :
  column_format (numeric_close asset_type) <> "DATE" ->
  "DATE" ∉ numeric_required asset_type ->
  drop "DATE" (set_index [today] (formatted_frame today asset_type v))
  = Ok (numeric_table today asset_type v).
Proof.
  intros Hclose Hreq. unfold drop, set_index, numeric_table.
  rewrite bool_decide_eq_true_2 by (unfold columns; cbn; left).
  cbn [index series formatted_frame]. do 2 f_equal.
  rewrite filter_cons_False by (intros Hne; by apply Hne).
  apply filter_all. intros col Hcol Hlabel.
  apply label_of_constant in Hcol. rewrite Hlabel in Hcol.
  apply elem_of_cons in Hcol as [Heq|Hin]; [by apply Hclose|by apply Hreq].
Qed.

(** Where the numeric case succeeds. For a numeric scalar [v] the
    constructor returns a dataset whose table has one row, dated [today],
    in which the close column (the configured name, or CLOSE) and every
    required column hold [v], provided that no close or required name
    formats to DATE and that an open name the asset type configures
    formats to the close column or to a required column. *)
Theorem numeric_dataset
    (to_datetimes : list (list (cell V)) -> result (list Z)) (today : Z)
    (asset_type : Settings) (v : V) (columns : option (list string)) :
  (forall stamps, to_datetimes [map Stamp stamps] = Ok stamps) ->
  column_format (numeric_close asset_type) <> "DATE" ->
  "DATE" ∉ numeric_required asset_type ->
  (forall o, PyStr.truthy_opt (s_open_value asset_type) = Some o ->
             column_format o ∈ column_format (numeric_close asset_type)
                                :: numeric_required asset_type) ->
  exists ds : AssetData V,
    __init__ to_datetimes today asset_type (Some (RNumeric v)) columns = Ok ds
    /\ data ds = Some (numeric_table today asset_type v)
    /\ Datatools.close_value ds = Some (column_format (numeric_close asset_type)).
Proof.
  intros Hconv Hclose Hreq Hopen.
  unfold __init__. fold (numeric_required asset_type).
  rewrite acquire_numeric. cbn [mbind result_bind].
  rewrite date_rename_numeric.
  destruct (resolve_numeric today asset_type v Hopen) as (o & single & Hres & Hin & Hfix).
  rewrite Hres. cbn [mbind result_bind].
  pose proof Hres as Htr. apply resolve_truthy in Htr as [Ho Hc].
  rewrite (both_required_assembled _ _ _ Ho Hc). cbn [negb].
  rewrite (validate_numeric today asset_type v o Ho Hin Hfix). cbn [mbind result_bind].
  rewrite (select_DATE_numeric _ _ _ Hclose Hreq).
  pose proof (Hconv [today]) as Htoday. cbn [map] in Htoday.
  rewrite Htoday. cbn [mbind result_bind].
  rewrite (drop_DATE_numeric _ _ _ Hclose Hreq). cbn [mbind result_bind].
  eexists. split; [reflexivity|]. split; reflexivity.
Qed.

End Numeric.

End DatatoolsFacts.

(** ** The registry and the asset base class *)

Module FinanceFacts.

Import pd Finance.

Section Registry.

Lemma TYPES_initial_NoDup : NoDup (map tag TYPES_initial).
Proof. apply NoDup_singleton. Qed.

Lemma lookup_member_present (TYPES : list member) (TYPE : string) :
  TYPE ∈ map tag TYPES ->
  exists x, lookup_member TYPES TYPE = Ok x /\ tag x = TYPE.
Proof.
  intros Hin. apply (list_elem_of_fmap tag) in Hin as (x & -> & Hx).
  unfold lookup_member.
  destruct (filter (fun y => tag y = tag x) TYPES) as [|y l] eqn:E.
  - assert (Hx' : x ∈ filter (fun y => tag y = tag x) TYPES)
      by (apply list_elem_of_filter; auto).
    rewrite E in Hx'. by apply elem_of_nil in Hx'.
  - exists y. split; [reflexivity|].
    assert (Hy : y ∈ filter (fun y => tag y = tag x) TYPES)
      by (rewrite E; left).
    by apply list_elem_of_filter in Hy as [Hy _].
Qed.

Lemma tags_extend_enum (TYPES : list member) (TYPE : string) :
  map tag (extend_enum TYPES TYPE) = (map tag TYPES ++ [TYPE])%list.
Proof. unfold extend_enum. by rewrite map_app. Qed.

Lemma markers_absent (bases : list base) :
  forallb (fun b => negb (bool_decide (b ∈ bases))) [ABC; Hidden] = true
  <-> (ABC ∉ bases) /\ (Hidden ∉ bases).
Proof.
  simpl. rewrite andb_true_r, andb_true_iff, !negb_true_iff.
  by rewrite !bool_decide_eq_false.
Qed.

(** C5. A class whose immediate parents include [ABC] or [Hidden] leaves
    the enumeration as it was and keeps the tag of an ancestor, or gets
    [UNDEFINED] when no ancestor has one. Any other class gets the tag
    named by its name in upper case; that tag is a member afterwards,
    member names stay distinct, and a name that was a member already
    is reused, not added again. *)
Theorem registration (TYPES : list member) (cls : declaration) :
  NoDup (map tag TYPES) ->
  let TYPE := PyStr.upper (__name__ cls) in
  ((ABC ∈ __bases__ cls \/ Hidden ∈ __bases__ cls) ->
   __init_subclass__ TYPES cls
   = Ok (TYPES, default UNDEFINED (inherited cls)))
  /\ (((ABC ∉ __bases__ cls) /\ (Hidden ∉ __bases__ cls)) ->
      exists TYPES',
        __init_subclass__ TYPES cls = Ok (TYPES', TYPE)
        /\ NoDup (map tag TYPES')
        /\ TYPE ∈ map tag TYPES'
        /\ (TYPE ∈ map tag TYPES -> TYPES' = TYPES)
        /\ (TYPE ∉ map tag TYPES -> TYPES' = extend_enum TYPES TYPE)).
Proof.
  intros Hnodup TYPE. unfold __init_subclass__. fold TYPE. split.
  - intros Hmarker.
    destruct (forallb _ _) eqn:Hall.
    + apply markers_absent in Hall as [Habc Hhidden]. tauto.
    + simpl. by destruct (inherited cls).
  - intros Hno. apply markers_absent in Hno. rewrite Hno.
    destruct (decide (TYPE ∈ map tag TYPES)) as [Hin|Hnin].
    + rewrite (bool_decide_eq_true_2 _ Hin). cbn [negb].
      destruct (lookup_member_present _ _ Hin) as (x & Hlook & Htag).
      rewrite Hlook. simpl. rewrite Htag.
      exists TYPES. repeat split; auto. tauto.
    + rewrite (bool_decide_eq_false_2 _ Hnin). cbn [negb].
      assert (Hin' : TYPE ∈ map tag (extend_enum TYPES TYPE)).
      { rewrite tags_extend_enum. apply elem_of_app. right. left. }
      destruct (lookup_member_present _ _ Hin') as (x & Hlook & Htag).
      rewrite Hlook. simpl. rewrite Htag.
      exists (extend_enum TYPES TYPE).
      repeat split; auto; [|tauto].
      rewrite tags_extend_enum. apply NoDup_app. repeat split.
      * exact Hnodup.
      * intros y Hy Hy'. apply list_elem_of_singleton in Hy' as ->. tauto.
      * apply NoDup_singleton.
Qed.

End Registry.

Section Construction.
Context {V : Type}.

(** The price line 78 assigns. *)
Lemma set_price_value (zero : V) (data : option (Datatools.RawData V))
    (st : state V) :
  its_price (self (set_price zero data st).1)
  = Some (match data with
          | Some (Datatools.RNumeric v) => Scalar (Num v)
          | _ => Scalar (Num zero)
          end).
Proof. reflexivity. Qed.

(** Line 79 raises, whatever the state. *)
Lemma set_valuate_on_raises (st : state V) :
  set_valuate_on st = (st, Some (AttributeError "COLUMNS")).
Proof. reflexivity. Qed.

(** C6, at the inputs the code fails on, which are all of them. The
    constructor assigns the name and the price, then raises
    [AttributeError] while it evaluates the right-hand side of line 79:
    the valuation column is not assigned and the check of lines 82 to 90
    is not reached, so the instances are as they were. *)
Theorem init_stops_at_line_79 (zero : V) (type : string) (this : ident)
    (name : string) (data : option (Datatools.RawData V))
    (allow_duplicates : bool) (st : state V) :
  __init__ zero type this name data allow_duplicates st
  = ({| self :=
          {| its_name := Some name;
             its_price :=
               Some (match data with
                     | Some (Datatools.RNumeric v) => Scalar (Num v)
                     | _ => Scalar (Num zero)
                     end);
             its_valuate_on := its_valuate_on (self st) |};
        registered := registered st |},
     Some (AttributeError "COLUMNS")).
Proof. reflexivity. Qed.

(** A name that is registered, duplicates not allowed: line 90. *)
Lemma register_duplicate_refused (type : string) (this : ident)
    (name : string) (st : state V) (n : string) :
  name ∈ dom (registered st) ->
  its_name (self st) = Some n ->
  register type this name false st
  = (st, Some (AssetDuplicationError
       ("Attempted duplication of " ++ n ++ " " ++ type ++
        ". Multiple instances of the same asset are not permitted"))).
Proof.
  intros Hin Hname. unfold register, duplication.
  rewrite (bool_decide_eq_true_2 _ Hin). cbn [negb]. by rewrite Hname.
Qed.

(** A name that is not registered, duplicates not allowed: line 86. *)
Lemma register_new (type : string) (this : ident) (name : string)
    (st : state V) :
  name ∉ dom (registered st) ->
  register type this name false st
  = ({| self := self st; registered := <[name := this]> (registered st) |},
     None).
Proof.
  intros Hnin. unfold register.
  by rewrite (bool_decide_eq_false_2 _ Hnin).
Qed.

(** Duplicates allowed: lines 84 and 88 both raise [TypeError] and leave
    the instances as they were. *)
Lemma register_allowing_duplicates (type : string) (this : ident)
    (name : string) (st : state V) :
  register type this name true st = (st, Some TypeError).
Proof.
  unfold register.
  destruct (bool_decide (name ∈ dom (registered st))) eqn:Hin; cbn [negb].
  - apply bool_decide_eq_true_1, elem_of_dom in Hin as [other Hother].
    by rewrite Hother.
  - reflexivity.
Qed.

(** C1, at the input the code fails on. With a name that is registered
    and duplicates allowed, line 88 raises [TypeError]: nothing is
    appended, and the name still leads to the first instance only. *)
Theorem duplicate_allowed_raises (type : string) (this other : ident)
    (name : string) (object : fresh V) (instances : gmap string ident) :
  let st := {| self := object; registered := <[name := other]> instances |} in
  name ∈ dom (registered st)
  /\ register type this name true st = (st, Some TypeError)
  /\ registered (register type this name true st).1 !! name = Some other.
Proof.
  intros st. split; [|split].
  - subst st. cbn [registered]. apply elem_of_dom.
    exists other. apply lookup_insert_eq.
  - apply register_allowing_duplicates.
  - rewrite register_allowing_duplicates. subst st. cbn.
    apply lookup_insert_eq.
Qed.

End Construction.

Section Valuation.
Context {V : Type}.
Variable fromisoformat : string -> option Z.
Variable _valuate : Asset V -> result (Asset V * value V).
Variable depth : nat.

(** C9. [valuate()] and [valuate(self.date)] are the same computation:
    the same result and the same asset afterwards, or the same
    exception. *)
Theorem valuate_default_date (self : Asset V) :
  valuate fromisoformat _valuate depth self NoDate
  = valuate fromisoformat _valuate depth self (Datetime (date self)).
Proof. reflexivity. Qed.

Lemma filter_relabelled (g : string * list (cell V) -> cell V) (key : string)
    (cols : list (string * list (cell V))) :
  filter (fun e : string * cell V => e.1 = key)
         (map (fun col => (col.1, g col)) cols)
  = map (fun col => (col.1, g col)) (filter (fun col => col.1 = key) cols).
Proof.
  induction cols as [|col cols IH]; [reflexivity|].
  cbn [map]. rewrite !filter_cons. cbn [fst].
  destruct (decide (col.1 = key)); rewrite IH; reflexivity.
Qed.

Lemma getitem_relabelled (g : string * list (cell V) -> cell V) (key : string)
    (cols : list (string * list (cell V))) (cells : list (cell V)) :
  filter (fun col => col.1 = key) cols = [(key, cells)] ->
  getitem (map (fun col => (col.1, g col)) cols) key
  = Ok (Scalar (g (key, cells))).
Proof.
  intros Hone. unfold getitem. by rewrite filter_relabelled, Hone.
Qed.

Lemma monotonic_head_le (start : Z) (rest : list Z) (t : Z) :
  is_monotonic_increasing (start :: rest) = true ->
  t ∈ start :: rest -> (start <= t)%Z.
Proof.
  revert start. induction rest as [|y rest IH]; intros start Hmono Hin.
  - apply list_elem_of_singleton in Hin as ->. lia.
  - cbn in Hmono. apply andb_true_iff in Hmono as [Hle Hmono].
    apply Z.leb_le in Hle.
    apply elem_of_cons in Hin as [->|Hin]; [lia|].
    specialize (IH y Hmono Hin). lia.
Qed.

Lemma last_complete (P : nat -> Prop) `{!forall i, Decision (P i)} (n : nat) :
  P n -> last (filter P (seq 0 (S n))) = Some n.
Proof.
  intros Hn. rewrite seq_S, filter_app. cbn [Nat.add].
  rewrite (filter_cons_True P) by exact Hn. rewrite filter_nil.
  apply last_snoc.
Qed.

(** C4, amended. Take an asset whose dataset has a table with at least
    one row, a sorted date index, no column labelled asof, and exactly
    one column under the valuation label. Valuating at a date earlier
    than every row raises nothing: the missing-value marker is stored as
    the price and returned. Valuating at a date at or after the last
    row stores and returns the cell of the valuation column in the last
    row, provided the last row has no missing value. *)
Theorem valuate_as_of (self : Asset V) (df : DataFrame V) (stamps : list Z)
    (cells : list (cell V)) (d : Z) :
  Datatools.data (data self) = Some df ->
  index df = DatetimeIndex stamps ->
  stamps <> [] ->
  is_monotonic_increasing stamps = true ->
  "asof" ∉ columns df ->
  filter (fun col => col.1 = valuate_on self) (series df)
  = [(valuate_on self, cells)] ->
  ((forall t, t ∈ stamps -> (d < t)%Z) ->
   valuate fromisoformat _valuate depth self (Datetime d)
   = Ok (set_current_price self (Scalar NaN), Scalar NaN))
  /\ (forall t, last stamps = Some t -> (t <= d)%Z ->
       has_nan (row_at df (length stamps - 1)) = false ->
       let p := Scalar (default NaN (cells !! (length stamps - 1))) in
       valuate fromisoformat _valuate depth self (Datetime d)
       = Ok (set_current_price self p, p)).
Proof.
  intros Hdata Hindex Hne Hmono Hasof Hcol.
  assert (Hnonempty : empty df = false).
  { unfold empty. rewrite Hindex. cbn [index_length].
    destruct stamps; [done|]. destruct (series df); [done|]. reflexivity. }
  assert (Hstart :
    valuate fromisoformat _valuate depth self (Datetime d)
    = (row ← pd.asof df d;
       p ← getitem row (valuate_on self);
       Ok (set_current_price self p, p))).
  { unfold valuate, _data_valuate, Datatools.asof.
    cbn [_normalize_date_input mbind result_bind].
    rewrite (DatatoolsFacts.bool_of_table _ _ _ Hdata), Hnonempty.
    cbn [negb mbind result_bind].
    rewrite (DatatoolsFacts.self_data_assigned _ _ _ Hdata).
    cbn [mbind result_bind].
    by rewrite (bool_decide_eq_false_2 _ Hasof). }
  rewrite Hstart. clear Hstart.
  unfold pd.asof. rewrite Hindex, Hmono. cbn [negb].
  destruct stamps as [|start rest]; [done|].
  split.
  - intros Hearly.
    assert (Hlt : (d <? start)%Z = true)
      by (apply Z.ltb_lt, Hearly; left).
    rewrite Hlt. cbn [mbind result_bind]. unfold nan_row.
    rewrite (getitem_relabelled (fun _ => NaN) _ _ _ Hcol). reflexivity.
  - intros t Hlast Hle Hcomplete.
    assert (Hin : t ∈ start :: rest).
    { rewrite last_lookup in Hlast. by apply list_elem_of_lookup_2 in Hlast. }
    pose proof (monotonic_head_le _ _ _ Hmono Hin) as Hstart.
    assert (Hge : (d <? start)%Z = false) by (apply Z.ltb_ge; lia).
    rewrite Hge.
    cbn [length] in *. rewrite Nat.sub_1_r in *. cbn [Nat.pred] in *.
    rewrite last_complete; cycle 1.
    { split; [|exact Hcomplete].
      rewrite last_lookup in Hlast. cbn [length Nat.pred] in Hlast.
      by rewrite Hlast. }
    cbn [mbind result_bind]. unfold row_at.
    rewrite (getitem_relabelled
               (fun col => default NaN (col.2 !! length rest)) _ _ _ Hcol).
    reflexivity.
Qed.

End Valuation.

End FinanceFacts.


(** ** The properties on concrete inputs *)

Module OnExamples.

Import pd Examples.

Lemma stamps_only_stamps (stamps : list Z) :
  Datatools.stamps_only (V := Z) [map Stamp stamps] = Ok stamps.
Proof.
  unfold Datatools.stamps_only.
  induction stamps as [|t stamps IH]; [reflexivity|].
  cbn [map mapM]. rewrite IH. reflexivity.
Qed.

(** An asset type that names an open column gets no dataset from a
    number. *)
Lemma numeric_with_open_name_fails :
  Datatools.__init__ Datatools.stamps_only 100 open_type
    (Some (Datatools.RNumeric 5%Z)) None
  = Err (ValueError "AssetData missing required columns: 'OPEN'").
Proof. vm_compute. reflexivity. Qed.

Lemma numeric_dataset_witness :
  exists ds : Datatools.AssetData Z,
    Datatools.__init__ Datatools.stamps_only 100 adjusted_type
      (Some (Datatools.RNumeric 5%Z)) None = Ok ds
    /\ Datatools.data ds
       = Some {| index := DatetimeIndex [100%Z];
                 series := [("ADJ_CLOSE", [Num 5%Z]); ("VOLUME", [Num 5%Z])] |}
    /\ Datatools.close_value ds = Some "ADJ_CLOSE".
Proof.
  apply (DatatoolsFacts.numeric_dataset Datatools.stamps_only 100
           adjusted_type 5%Z None).
  - exact stamps_only_stamps.
  - vm_compute. discriminate.
  - vm_compute. intros H. repeat (apply elem_of_cons in H as [H|H]; [discriminate|]).
    by apply elem_of_nil in H.
  - vm_compute. discriminate.
Defined.

Lemma validate_columns_missing_witness :
  (exists msg,
      Datatools.validate_columns sparse (Some ["close"; "volume"; "adj close"])
        (Some ["extra"]) = Err (ValueError msg)
      /\ PyStr.occurs "'VOLUME'" msg /\ PyStr.occurs "'ADJ_CLOSE'" msg)
  /\ (forall msg,
        Datatools.validate_columns sparse (Some ["close"]) (Some ["extra"])
        <> Err (ValueError msg)).
Proof.
  split.
  - destruct (DatatoolsFacts.validate_columns_missing sparse
                (Some ["close"; "volume"; "adj close"]) (Some ["extra"]))
      as [Hmissing _].
    destruct Hmissing as (msg & Hmsg & Hshown).
    + exists "volume". split; [vm_compute; set_solver|].
      vm_compute. intros H.
      repeat (apply elem_of_cons in H as [H|H]; [discriminate|]).
      by apply elem_of_nil in H.
    + exists msg. split; [exact Hmsg|]. split.
      * apply (Hshown "volume"); [set_solver|].
        vm_compute. intros H.
        repeat (apply elem_of_cons in H as [H|H]; [discriminate|]).
        by apply elem_of_nil in H.
      * apply (Hshown "adj close"); [set_solver|].
        vm_compute. intros H.
        repeat (apply elem_of_cons in H as [H|H]; [discriminate|]).
        by apply elem_of_nil in H.
  - destruct (DatatoolsFacts.validate_columns_missing sparse
                (Some ["close"]) (Some ["extra"])) as [_ Hpresent].
    apply Hpresent. intros r Hr.
    apply list_elem_of_singleton in Hr as ->. vm_compute. left.
Defined.

Lemma single_name_resolution_witness :
  (exists ds : Datatools.AssetData Z,
      Datatools.__init__ Datatools.stamps_only 0 priced_type
        (Some (Datatools.RFrame quotes)) None = Ok ds
      /\ Datatools.close_value ds = Some "PRICE"
      /\ Datatools.open_value ds = Datatools.close_value ds
      /\ Datatools.single_valued ds = Some true)
  /\ (exists ds : Datatools.AssetData Z,
      Datatools.__init__ Datatools.stamps_only 0 opening_type
        (Some (Datatools.RFrame quotes)) None = Ok ds
      /\ Datatools.open_value ds = Some "PRICE"
      /\ Datatools.close_value ds = Datatools.open_value ds
      /\ Datatools.single_valued ds = Some true).
Proof.
  split.
  - destruct (DatatoolsFacts.single_name_resolution Datatools.stamps_only 0
                priced_type (Datatools.RFrame quotes) None quotes []
                (Some "price") eq_refl) as [Hclose _].
    destruct (Hclose "price" eq_refl eq_refl) as [_ Hstored].
    eexists. split; [vm_compute; reflexivity|].
    apply Hstored. vm_compute. reflexivity.
  - destruct (DatatoolsFacts.single_name_resolution Datatools.stamps_only 0
                opening_type (Datatools.RFrame quotes) None quotes []
                None eq_refl) as [_ Hopen].
    destruct (Hopen "price" eq_refl eq_refl) as [_ Hstored].
    eexists. split; [vm_compute; reflexivity|].
    apply Hstored. vm_compute. reflexivity.
Defined.

Lemma defensive_check_holds_witness :
  Datatools.both_required "CLOSE" "CLOSE"
    (Datatools.assemble "CLOSE" "CLOSE" ["VOLUME"]) = true.
Proof.
  apply (DatatoolsFacts.defensive_check_holds None (Some "close") ["VOLUME"]
           "CLOSE" "CLOSE" true).
  reflexivity.
Defined.

Lemma registration_witness :
  Finance.__init_subclass__ Finance.TYPES_initial hidden_class
  = Ok (Finance.TYPES_initial, Finance.UNDEFINED)
  /\ exists TYPES',
      Finance.__init_subclass__ Finance.TYPES_initial stock_class
      = Ok (TYPES', "STOCK")
      /\ NoDup (map Finance.tag TYPES')
      /\ "STOCK" ∈ map Finance.tag TYPES'
      /\ TYPES' = Finance.extend_enum Finance.TYPES_initial "STOCK".
Proof.
  split.
  - destruct (FinanceFacts.registration Finance.TYPES_initial hidden_class
                FinanceFacts.TYPES_initial_NoDup) as [Hskip _].
    apply Hskip. right. vm_compute. set_solver.
  - destruct (FinanceFacts.registration Finance.TYPES_initial stock_class
                FinanceFacts.TYPES_initial_NoDup) as [_ Hnew].
    destruct Hnew as (TYPES' & Hrun & Hnodup & Hin & _ & Hfresh).
    + split; vm_compute; intros H;
        repeat (apply elem_of_cons in H as [H|H]; [discriminate|]);
        by apply elem_of_nil in H.
    + exists TYPES'. repeat split; try assumption.
      apply Hfresh. vm_compute. intros H.
      repeat (apply elem_of_cons in H as [H|H]; [discriminate|]).
      by apply elem_of_nil in H.
Defined.

(** C4 as stated fails: a date earlier than every row raises nothing. *)
Lemma early_date_returns_nan :
  Finance.valuate no_iso Finance.base_valuate limit (asset_of one_day)
    (Finance.Datetime 5)
  = Ok (Finance.set_current_price (asset_of one_day) (Scalar NaN), Scalar NaN).
Proof. vm_compute. reflexivity. Qed.

Lemma valuate_as_of_witness :
  Finance.valuate no_iso Finance.base_valuate limit (asset_of two_days)
    (Finance.Datetime 5)
  = Ok (Finance.set_current_price (asset_of two_days) (Scalar NaN), Scalar NaN)
  /\ Finance.valuate no_iso Finance.base_valuate limit (asset_of two_days)
       (Finance.Datetime 25)
     = Ok (Finance.set_current_price (asset_of two_days) (Scalar (Num 9%Z)),
           Scalar (Num 9%Z)).
Proof.
  assert (Hasof : "asof" ∉ columns two_days).
  { vm_compute. intros H.
    repeat (apply elem_of_cons in H as [H|H]; [discriminate|]).
    by apply elem_of_nil in H. }
  split.
  - destruct (FinanceFacts.valuate_as_of no_iso Finance.base_valuate limit
                (asset_of two_days) two_days [10%Z; 20%Z] [Num 7%Z; Num 9%Z] 5%Z
                eq_refl eq_refl ltac:(discriminate) eq_refl Hasof eq_refl)
      as [Hearly _].
    apply Hearly. intros t Ht.
    repeat (apply elem_of_cons in Ht as [->|Ht]; [lia|]).
    by apply elem_of_nil in Ht.
  - destruct (FinanceFacts.valuate_as_of no_iso Finance.base_valuate limit
                (asset_of two_days) two_days [10%Z; 20%Z] [Num 7%Z; Num 9%Z] 25%Z
                eq_refl eq_refl ltac:(discriminate) eq_refl Hasof eq_refl)
      as [_ Hlate].
    apply (Hlate 20%Z); [reflexivity|lia|reflexivity].
Defined.

End OnExamples.

(** ** More on the dataset module *)

Module DatasetFacts.

Import pd Datatools PyStrFacts DatatoolsFacts.

Section Format.

Lemma format_char_normal (c : ascii) :
  let c' := PyStr.upper_char (PyStr.underscore c) in
  Ascii.eqb " " c' = false
  /\ ((97 <=? nat_of_ascii c')%nat && (nat_of_ascii c' <=? 122)%nat) = false.
Proof. destruct c as [[] [] [] [] [] [] [] []]; split; reflexivity. Qed.

Lemma format_char_ascii (c : ascii) :
  (nat_of_ascii c <? 128)%nat = true ->
  (nat_of_ascii (PyStr.upper_char (PyStr.underscore c)) <? 128)%nat = true.
Proof. destruct c as [[] [] [] [] [] [] [] []]; vm_compute; auto. Qed.

(** X1. For a column name of ASCII characters, on which [PyStr.upper] is
    [str.upper]: the formatted name is again ASCII, has the length of the
    name it comes from, no space and no lower-case letter, and formatting
    it again changes nothing. *)
Theorem column_format_normal_form (column : string) :
  PyStr.isascii column = true ->
  PyStr.isascii (column_format column) = true
  /\ String.length (column_format column) = String.length column
  /\ PyStr.has_char " " (column_format column) = false
  /\ (forall c, PyStr.has_char c (column_format column) = true ->
                (nat_of_ascii c < 97 \/ 122 < nat_of_ascii c)%nat)
  /\ column_format (column_format column) = column_format column.
Proof.
  unfold column_format, PyStr.upper.
  induction column as [|a s IH]; intros Hascii.
  - repeat split; try reflexivity. intros c [=].
  - cbn [PyStr.isascii] in Hascii.
    apply andb_true_iff in Hascii as [Ha Hs].
    destruct (IH Hs) as (IHascii & IHlen & IHspace & IHlower & IHidem).
    cbn [PyStr.map_chars String.length PyStr.has_char PyStr.isascii].
    destruct (format_char_normal a) as [Hspace Hlower]. cbn zeta in *.
    repeat split.
    + by rewrite (format_char_ascii a Ha), IHascii.
    + by rewrite IHlen.
    + by rewrite Hspace, IHspace.
    + intros c Hc. apply orb_true_iff in Hc as [Hc|Hc]; [|by apply IHlower].
      apply Ascii.eqb_eq in Hc as ->.
      apply andb_false_iff in Hlower as [H|H].
      * apply Nat.leb_gt in H. lia.
      * apply Nat.leb_gt in H. lia.
    + rewrite format_char_idempotent. f_equal. exact IHidem.
Qed.

End Format.

Section Validate.
Context {V : Type}.
Implicit Types (data : DataFrame V) (todo listed : list string).

Lemma elem_of_columns_filter (P : string * list (cell V) -> Prop)
    `{!forall col, Decision (P col)} (Q : string -> Prop)
    (cols : list (string * list (cell V))) (c : string) :
  (forall col, P col <-> Q col.1) ->
  c ∈ map fst (filter P cols) <-> Q c /\ c ∈ map fst cols.
Proof.
  intros HPQ. induction cols as [|col cols IH].
  - split; [intros Hc|intros [_ Hc]]; by apply elem_of_nil in Hc.
  - rewrite filter_cons. cbn [map]. destruct (decide (P col)) as [Hq|Hq];
      rewrite HPQ in Hq.
    + cbn [map]. rewrite !elem_of_cons, IH.
      split; [intros [->|[? ?]]; auto|intros [? [->|?]]; auto].
    + rewrite IH, elem_of_cons.
      split; [intros [? ?]; auto|intros [? [->|?]]; [tauto|auto]].
Qed.

Lemma elem_of_columns_without (label : string)
    (cols : list (string * list (cell V))) (c : string) :
  c ∈ map fst (filter (fun col => col.1 ≠ label) cols)
  <-> c ≠ label /\ c ∈ map fst cols.
Proof. by apply (elem_of_columns_filter _ (fun l => l ≠ label)). Qed.

Lemma columns_after_drop label data data' :
  drop label data = Ok data' ->
  label ∈ columns data
  /\ index data' = index data
  /\ series data' = filter (fun col => col.1 ≠ label) (series data).
Proof.
  unfold drop. destruct (bool_decide (label ∈ columns data)) eqn:E;
    [|discriminate].
  intros [= <-]. apply bool_decide_eq_true_1 in E. auto.
Qed.

(** What the loop leaves when it ends: the columns whose label it met and
    found unlisted are gone, all others stay in place. *)
Lemma drop_unlisted_post todo listed data data' :
  drop_unlisted todo listed data = Ok data' ->
  index data' = index data
  /\ series data'
     = filter (fun col => ~ (col.1 ∈ todo /\ col.1 ∉ listed)) (series data).
Proof.
  revert data. induction todo as [|column todo IH]; intros data; cbn.
  - intros [= <-]. split; [reflexivity|]. symmetry. apply filter_all.
    intros col _ [Hin _]. by apply elem_of_nil in Hin.
  - destruct (bool_decide (column ∈ listed)) eqn:E.
    + apply bool_decide_eq_true_1 in E. intros H.
      apply IH in H as [Hindex ->]. split; [exact Hindex|].
      apply list_filter_iff. intros col. rewrite elem_of_cons.
      split; intros Hkeep [Hin Hun]; apply Hkeep.
      * destruct Hin as [Heq|Hin]; [rewrite Heq in Hun; tauto|]. by split.
      * split; [by right|exact Hun].
    + apply bool_decide_eq_false_1 in E.
      destruct (drop column data) as [data1|] eqn:Hdrop; [|discriminate].
      cbn. intros H. apply IH in H as [Hindex ->].
      apply columns_after_drop in Hdrop as (_ & Hindex1 & ->).
      split; [congruence|].
      rewrite list_filter_filter. apply list_filter_iff. intros col.
      rewrite elem_of_cons. split.
      * intros [Hkeep Hne] [[Heq|Hin] Hun]; [by apply Hne|].
        apply Hkeep. by split.
      * intros Hkeep. split.
        -- intros [Hin Hun]. apply Hkeep. split; [by right|exact Hun].
        -- intros Heq. apply Hkeep. split; [by left|by rewrite Heq].
Qed.

(** The loop ends when no unlisted label repeats. *)
Lemma drop_unlisted_distinct todo listed data :
  (forall c, c ∈ todo -> c ∉ listed -> c ∈ columns data) ->
  NoDup (filter (fun c => c ∉ listed) todo) ->
  exists data', drop_unlisted todo listed data = Ok data'.
Proof.
  revert data. induction todo as [|column todo IH]; intros data Hpresent Hnodup.
  - by eexists.
  - cbn. rewrite filter_cons in Hnodup.
    destruct (bool_decide (column ∈ listed)) eqn:E.
    + apply bool_decide_eq_true_1 in E.
      destruct (decide (column ∉ listed)); [tauto|].
      apply IH; [|exact Hnodup]. intros c Hc. apply Hpresent. by right.
    + apply bool_decide_eq_false_1 in E.
      destruct (decide (column ∉ listed)); [|tauto].
      apply NoDup_cons in Hnodup as [Hfresh Hnodup].
      unfold drop. rewrite bool_decide_eq_true_2 by (apply Hpresent; [left|exact E]).
      cbn. apply IH; [|exact Hnodup].
      intros c Hc Hun. unfold columns. cbn [series].
      apply elem_of_columns_without. split.
      * intros ->. apply Hfresh. by apply list_elem_of_filter.
      * apply Hpresent; [by right|exact Hun].
Qed.

(** An unlisted label that is no longer in the table stops the loop. *)
Lemma drop_unlisted_absent todo listed data :
  (exists c, c ∈ todo /\ (c ∉ listed) /\ c ∉ columns data) ->
  exists k, drop_unlisted todo listed data = Err (KeyError k)
            /\ k ∈ todo /\ k ∉ listed.
Proof.
  revert data. induction todo as [|column todo IH]; intros data (c & Hc & Hun & Habs).
  - by apply elem_of_nil in Hc.
  - cbn. destruct (bool_decide (column ∈ listed)) eqn:E.
    + apply bool_decide_eq_true_1 in E.
      apply elem_of_cons in Hc as [->|Hc]; [tauto|].
      destruct (IH data) as (k & Hk & Hin & Hk'); [by exists c|].
      exists k. rewrite elem_of_cons. auto.
    + apply bool_decide_eq_false_1 in E. unfold drop.
      destruct (bool_decide (column ∈ columns data)) eqn:Ein.
      * apply bool_decide_eq_true_1 in Ein. cbn.
        apply elem_of_cons in Hc as [->|Hc]; [tauto|].
        match goal with |- context [drop_unlisted todo listed ?d] =>
          destruct (IH d) as (k & Hk & Hin & Hk') end.
        { exists c. repeat split; [exact Hc|exact Hun|].
          unfold columns. cbn [series]. intros Hin.
          apply elem_of_columns_without in Hin as [_ Hin].
          by apply Habs. }
        exists k. rewrite elem_of_cons. auto.
      * cbn. exists column. rewrite elem_of_cons. auto.
Qed.

(** An unlisted label that repeats stops the loop. *)
Lemma drop_unlisted_repeated todo listed data :
  (forall c, c ∈ todo -> c ∉ listed -> c ∈ columns data) ->
  ~ NoDup (filter (fun c => c ∉ listed) todo) ->
  exists k, drop_unlisted todo listed data = Err (KeyError k)
            /\ k ∈ todo /\ k ∉ listed.
Proof.
  revert data. induction todo as [|column todo IH]; intros data Hpresent Hdup.
  - destruct Hdup. constructor.
  - rewrite filter_cons in Hdup. cbn.
    destruct (bool_decide (column ∈ listed)) eqn:E.
    + apply bool_decide_eq_true_1 in E.
      destruct (decide (column ∉ listed)); [tauto|].
      destruct (IH data) as (k & Hk & Hin & Hk'); [|exact Hdup|].
      { intros c Hc. apply Hpresent. by right. }
      exists k. rewrite elem_of_cons. auto.
    + apply bool_decide_eq_false_1 in E.
      destruct (decide (column ∉ listed)); [|tauto].
      unfold drop.
      rewrite bool_decide_eq_true_2 by (apply Hpresent; [left|exact E]). cbn.
      destruct (decide (column ∈ todo)) as [Hagain|Hfresh].
      * match goal with |- context [drop_unlisted todo listed ?d] =>
          destruct (drop_unlisted_absent todo listed d) as (k & Hk & Hin & Hk') end.
        { exists column. repeat split; [exact Hagain|exact E|].
          unfold columns. cbn [series]. intros Hin.
          by apply elem_of_columns_without in Hin as [Hne _]. }
        exists k. rewrite elem_of_cons. auto.
      * match goal with |- context [drop_unlisted todo listed ?d] =>
          destruct (IH d) as (k & Hk & Hin & Hk') end.
        { intros c Hc Hun. unfold columns. cbn [series].
          apply elem_of_columns_without. split.
          - intros ->. by apply Hfresh.
          - apply Hpresent; [by right|exact Hun]. }
        { intros Hnodup. apply Hdup. apply NoDup_cons. split; [|exact Hnodup].
          intros Hin. apply Hfresh. by apply list_elem_of_filter in Hin as [_ Hin]. }
        exists k. rewrite elem_of_cons. auto.
Qed.

Lemma filter_iff_in {A : Type} (P Q : A -> Prop) `{!forall x, Decision (P x)}
    `{!forall x, Decision (Q x)} (l : list A) :
  (forall x, x ∈ l -> P x <-> Q x) -> filter P l = filter Q l.
Proof.
  induction l as [|a l IH]; intros Hiff; [reflexivity|].
  rewrite !filter_cons.
  assert (Ha : P a <-> Q a) by (apply Hiff; left).
  assert (Hl : filter P l = filter Q l)
    by (apply IH; intros x Hx; apply Hiff; by right).
  destruct (decide (P a)), (decide (Q a)); try tauto; by rewrite Hl.
Qed.

Lemma label_in_columns (cols : list (string * list (cell V)))
    (col : string * list (cell V)) :
  col ∈ cols -> col.1 ∈ map fst cols.
Proof. intros Hin. by apply (list_elem_of_fmap_2 fst). Qed.

(** With every required column present, the check of lines 248 to 252
    passes and only the loop remains. *)
Lemma validate_present data (required optional : option (list string)) :
  (forall r, r ∈ default [] required -> column_format r ∈ columns data) ->
  validate_columns data required optional
  = drop_unlisted (columns data) (listed_names required optional) data.
Proof.
  intros Hall. unfold validate_columns.
  rewrite filter_none; [reflexivity|].
  intros x Hx Hnot. apply elem_of_to_dict in Hx as (r & -> & Hr).
  by apply Hnot, Hall.
Qed.

Lemma validate_success data (required optional : option (list string)) data' :
  validate_columns data required optional = Ok data' ->
  (forall r, r ∈ default [] required -> column_format r ∈ columns data)
  /\ drop_unlisted (columns data) (listed_names required optional) data = Ok data'.
Proof.
  intros Hok.
  assert (Hall : forall r, r ∈ default [] required ->
                           column_format r ∈ columns data).
  { intros r Hr. destruct (decide (column_format r ∈ columns data)) as [|Hnot];
      [assumption|].
    unfold validate_columns in Hok.
    rewrite bool_decide_eq_false_2 in Hok; [discriminate|].
    intros Hnil.
    assert (Hin : column_format r
                  ∈ filter (fun column => column ∉ columns data)
                      (to_dict (default [] required))).
    { apply list_elem_of_filter. split; [exact Hnot|].
      apply elem_of_to_dict. by exists r. }
    rewrite Hnil in Hin. by apply elem_of_nil in Hin. }
  split; [exact Hall|]. by rewrite <- validate_present.
Qed.

Lemma series_after_loop data data' listed :
  drop_unlisted (columns data) listed data = Ok data' ->
  data' = {| index := index data;
             series := filter (fun col => col.1 ∈ listed) (series data) |}.
Proof.
  intros Hloop. apply drop_unlisted_post in Hloop as [Hindex Hseries].
  destruct data' as [i s]. cbn in *. subst i. f_equal. rewrite Hseries.
  apply filter_iff_in. intros col Hcol. split.
  - intros Hkeep. destruct (decide (col.1 ∈ listed)) as [|Hun]; [assumption|].
    destruct Hkeep. split; [by apply label_in_columns|exact Hun].
  - intros Hin [_ Hun]. by apply Hun.
Qed.

Lemma NoDup_keys (l : list string) : NoDup (keys l).
Proof.
  induction l as [|c l IH]; cbn; [constructor|].
  apply NoDup_cons. split; [|by apply NoDup_filter].
  intros Hin. by apply list_elem_of_filter in Hin as [Hne _].
Qed.

(** X2. The message of line 252 lists the required columns that are not in
    the table, under their formatted names, each of them once and nothing
    else. *)
Theorem validate_columns_message data (required optional : option (list string)) :
  (exists r, r ∈ default [] required /\ column_format r ∉ columns data) ->
  exists unsatisfied,
    validate_columns data required optional
    = Err (ValueError ("AssetData missing required columns: "
                       ++ PyStr.list_body unsatisfied))
    /\ NoDup unsatisfied
    /\ forall c, c ∈ unsatisfied
                 <-> (exists r, r ∈ default [] required /\ c = column_format r)
                     /\ c ∉ columns data.
Proof.
  intros (r & Hr & Hnot). unfold validate_columns.
  set (unsatisfied := filter (fun column => column ∉ columns data)
                             (to_dict (default [] required))).
  assert (Hspec : forall c, c ∈ unsatisfied
            <-> (exists r, r ∈ default [] required /\ c = column_format r)
                /\ c ∉ columns data).
  { intros c. unfold unsatisfied.
    rewrite list_elem_of_filter, elem_of_to_dict. split.
    - intros [Hn (r0 & Heq & Hr0)]. split; [by exists r0|exact Hn].
    - intros [(r0 & Hr0 & Heq) Hn]. split; [exact Hn|by exists r0]. }
  exists unsatisfied. split; [|split; [|exact Hspec]].
  - rewrite bool_decide_eq_false_2; [reflexivity|].
    intros Hnil. assert (Hin : column_format r ∈ unsatisfied)
      by (apply Hspec; eauto).
    rewrite Hnil in Hin. by apply elem_of_nil in Hin.
  - apply NoDup_filter, NoDup_keys.
Qed.

(** X3. When every required column is in the table and no label outside
    the required and optional names repeats, [validate_columns] returns
    the table with its index, and with exactly the columns under a
    required or optional name, in their order. *)
Theorem validate_columns_keeps_listed data (required optional : option (list string)) :
  (forall r, r ∈ default [] required -> column_format r ∈ columns data) ->
  NoDup (filter (fun c => c ∉ listed_names required optional) (columns data)) ->
  validate_columns data required optional
  = Ok {| index := index data;
          series := filter (fun col => col.1 ∈ listed_names required optional)
                           (series data) |}.
Proof.
  intros Hall Hnodup. rewrite validate_present by exact Hall.
  destruct (drop_unlisted_distinct (columns data)
              (listed_names required optional) data) as [data' Hloop];
    [auto|exact Hnodup|].
  rewrite Hloop. f_equal. by apply series_after_loop.
Qed.

(** X4. When every required column is in the table but a label outside
    the required and optional names repeats, [validate_columns] raises
    [KeyError] for such a label: the loop of lines 263 to 265 drops all the
    columns of a label at its first occurrence and finds none at the next. *)
Theorem validate_columns_repeated_extra data (required optional : option (list string)) :
  (forall r, r ∈ default [] required -> column_format r ∈ columns data) ->
  ~ NoDup (filter (fun c => c ∉ listed_names required optional) (columns data)) ->
  exists k,
    validate_columns data required optional = Err (KeyError k)
    /\ k ∈ columns data /\ k ∉ listed_names required optional.
Proof.
  intros Hall Hdup. rewrite validate_present by exact Hall.
  apply drop_unlisted_repeated; [auto|exact Hdup].
Qed.

(** X5. A table [validate_columns] returns passes [validate_columns]
    again, under the same names, unchanged; it has every required column
    and no column outside the required and optional names. *)
Theorem validate_columns_idempotent data (required optional : option (list string))
    data' :
  validate_columns data required optional = Ok data' ->
  validate_columns data' required optional = Ok data'
  /\ (forall r, r ∈ default [] required -> column_format r ∈ columns data')
  /\ (forall c, c ∈ columns data' -> c ∈ listed_names required optional).
Proof.
  intros Hok. apply validate_success in Hok as [Hall Hloop].
  apply series_after_loop in Hloop.
  assert (Hcols : forall c, c ∈ columns data'
            <-> c ∈ listed_names required optional /\ c ∈ columns data).
  { intros c. rewrite Hloop. unfold columns. cbn [series].
    by apply (elem_of_columns_filter _
                (fun l => l ∈ listed_names required optional)). }
  assert (Hall' : forall r, r ∈ default [] required ->
                            column_format r ∈ columns data').
  { intros r Hr. apply Hcols. split; [|by apply Hall].
    apply elem_of_app. left. apply elem_of_to_dict. by exists r. }
  split; [|split; [exact Hall'|intros c Hc; by apply Hcols in Hc as [Hc _]]].
  rewrite validate_present by exact Hall'.
  apply drop_unlisted_all_listed. intros c Hc. by apply Hcols in Hc as [Hc _].
Qed.

End Validate.

(** *** A number as input *)

Section NumericInput.
Context {V : Type}.

Lemma filter_unique {A : Type} (P : A -> Prop) `{!forall x, Decision (P x)}
    (l : list A) (a : A) :
  NoDup l -> a ∈ l -> P a -> (forall x, x ∈ l -> P x -> x = a) ->
  filter P l = [a].
Proof.
  induction l as [|x l IH]; intros Hnd Hin Ha Huniq.
  - by apply elem_of_nil in Hin.
  - apply NoDup_cons in Hnd as [Hx Hnd].
    destruct (decide (P x)) as [HPx|HPx].
    + assert (x = a) as -> by (apply Huniq; [left|exact HPx]).
      rewrite filter_cons_True by exact Ha. f_equal.
      apply filter_none. intros y Hy HPy.
      assert (y = a) as -> by (apply Huniq; [by right|exact HPy]).
      by apply Hx.
    + rewrite filter_cons_False by exact HPx.
      apply IH; [exact Hnd| |exact Ha|].
      * apply elem_of_cons in Hin as [->|Hin]; [by destruct HPx|exact Hin].
      * intros y Hy. apply Huniq. by right.
Qed.

(** C2. The numeric case of lines 90 to 94 builds the columns DATE, the
    close column and the required columns, and no open column. When the
    asset type names an open column that is none of these, lines 152 and
    153 require it and the validation of line 165 misses it: no dataset
    is made from any number [v], the constructor raises the [ValueError]
    of line 252 for the open column. *)
Theorem numeric_open_name_missing
    (to_datetimes : list (list (cell V)) -> result (list Z)) (today : Z)
    (asset_type : Settings) (v : V) (columns : option (list string))
    (o : string) :
  PyStr.truthy_opt (s_open_value asset_type) = Some o ->
  column_format o ∉ "DATE" :: column_format (numeric_close asset_type)
                      :: numeric_required asset_type ->
  __init__ to_datetimes today asset_type (Some (RNumeric v)) columns
  = Err (ValueError ("AssetData missing required columns: "
                     ++ PyStr.repr (column_format o))).
Proof.
  intros Hopen Habsent.
  pose proof (numeric_close_truthy asset_type) as Hc.
  pose proof (truthy_opt_Some _ _ Hopen) as [_ Ho].
  unfold __init__. fold (numeric_required asset_type).
  rewrite acquire_numeric. cbn [mbind result_bind].
  rewrite date_rename_numeric.
  set (F := formatted_frame today asset_type v).
  assert (Hcols : pd.columns F
                  = "DATE" :: column_format (numeric_close asset_type)
                      :: numeric_required asset_type)
    by apply columns_formatted_frame.
  assert (Hgiven : default_name "OPEN" F (s_open_value asset_type)
                   = s_open_value asset_type).
  { unfold default_name, PyStr.truth. rewrite Hopen.
    by rewrite andb_false_r. }
  assert (Hclose : default_name "CLOSE" F (Some (numeric_close asset_type))
                   = Some (numeric_close asset_type)).
  { unfold default_name, PyStr.truth, PyStr.truthy_opt. rewrite Hc.
    by rewrite andb_false_r. }
  rewrite Hgiven, Hclose. unfold resolve. rewrite Hopen.
  change (PyStr.truthy_opt (Some (numeric_close asset_type)))
    with (if PyStr.truthy (numeric_close asset_type)
          then Some (numeric_close asset_type) else None).
  rewrite Hc. cbn [mbind result_bind].
  rewrite <- truthy_column_format in Ho, Hc.
  rewrite (both_required_assembled _ _ _ Ho Hc). cbn [negb].
  set (R := assemble _ _ _).
  assert (HR : forall x, x ∈ R <->
             x = "DATE" \/ x = column_format o
             \/ x = column_format (numeric_close asset_type)
             \/ x ∈ "DATE" :: numeric_close asset_type
                      :: numeric_required asset_type).
  { intros x. subst R. by apply assemble_spec. }
  unfold validate_columns.
  change (default [] (Some R)) with R.
  rewrite (filter_unique (fun column => column ∉ pd.columns F)
             (to_dict R) (column_format o)).
  - reflexivity.
  - apply NoDup_keys.
  - apply elem_of_to_dict. exists (column_format o).
    split; [symmetry; apply column_format_idempotent|].
    apply HR. right; by left.
  - by rewrite Hcols.
  - intros x Hx Hnot. apply elem_of_to_dict in Hx as (r & -> & Hr).
    apply HR in Hr. rewrite Hcols in Hnot.
    destruct Hr as [->|[->|[->|Hr]]].
    + destruct Hnot. left.
    + apply column_format_idempotent.
    + destruct Hnot. rewrite column_format_idempotent. right; left.
    + destruct Hnot.
      apply elem_of_cons in Hr as [->|Hr]; [left|].
      apply elem_of_cons in Hr as [->|Hr]; [right; left|].
      rewrite (numeric_required_formatted _ _ Hr). by do 2 right.
Qed.

End NumericInput.



Section Constructor.
Context {V : Type}.
Variable to_datetimes : list (list (cell V)) -> result (list Z).
Variable today : Z.
Implicit Types (asset_type : Settings) (raw : RawData V) (ds : AssetData V).

(** The steps a construction that returns went through. *)
Lemma init_success asset_type raw (columns : option (list string)) ds :
  __init__ to_datetimes today asset_type (Some raw) columns = Ok ds ->
  exists df required cv o c single data1 stamps data2,
    acquire today raw columns
      (map column_format (default [] (s_required asset_type)))
      (s_close_value asset_type) = Ok (df, required, cv)
    /\ resolve (default_name "OPEN" (formatted df) (s_open_value asset_type))
               (default_name "CLOSE" (formatted df) cv) = Ok (o, c, single)
    /\ validate_columns (formatted df) (Some (assemble o c required))
         (s_optional asset_type) = Ok data1
    /\ select "DATE" data1 <> []
    /\ to_datetimes (select "DATE" data1) = Ok stamps
    /\ drop "DATE" (set_index stamps data1) = Ok data2
    /\ ds = {| data := Some data2; open_value := Some o;
               close_value := Some c; single_valued := Some single |}.
Proof.
  unfold __init__, formatted.
  destruct (acquire _ _ _ _ _) as [[[df required] cv]|] eqn:Hacq;
    [cbn|discriminate].
  destruct (resolve _ _) as [[[o c] single]|] eqn:Hres; [cbn|discriminate].
  destruct (negb _); [discriminate|].
  destruct (validate_columns _ _ _) as [data1|] eqn:Hval; [cbn|discriminate].
  destruct (select "DATE" data1) as [|col sel] eqn:Hsel; [discriminate|].
  destruct (to_datetimes (col :: sel)) as [stamps|] eqn:Hconv; [cbn|discriminate].
  destruct (drop _ _) as [data2|] eqn:Hdrop; [cbn|discriminate].
  intros [= <-].
  exists df, required, cv, o, c, single, data1, stamps, data2.
  rewrite Hsel. repeat split; auto.
Qed.

Lemma columns_rename (f : string -> string) (df : DataFrame V) :
  columns (rename f df) = map f (columns df).
Proof.
  unfold columns, rename. cbn [series].
  induction (series df) as [|col cols IH]; [reflexivity|].
  cbn [map]. by rewrite IH.
Qed.

Lemma formatted_labels (df : DataFrame V) (l : string) :
  l ∈ columns (rename column_format df) -> column_format l = l.
Proof.
  rewrite columns_rename. intros Hl.
  apply elem_of_map in Hl as (x & -> & _). apply column_format_idempotent.
Qed.

Lemma resolve_formatted (open_value close_value : option string)
    (o c : string) (single : bool) :
  resolve open_value close_value = Ok (o, c, single) ->
  column_format o = o /\ column_format c = c /\ (single = true -> o = c).
Proof.
  unfold resolve.
  destruct (PyStr.truthy_opt close_value), (PyStr.truthy_opt open_value);
    intros [= <- <- <-] || discriminate;
    rewrite !column_format_idempotent; repeat split; auto; discriminate.
Qed.

(** What the first step hands on: the required names and the close name it
    was given, or those of the numeric case. *)
Lemma acquire_names raw (columns : option (list string)) (required0 : list string)
    (cv0 : option string) (df : DataFrame V) (required : list string)
    (cv : option string) :
  acquire today raw columns required0 cv0 = Ok (df, required, cv) ->
  (required = required0 /\ cv = cv0)
  \/ (exists close, PyStr.truthy close = true /\ cv = Some close
                    /\ required = "DATE" :: close :: required0).
Proof.
  destruct raw as [v|k built|df0|shown parsed]; cbn.
  - intros [= <- <- <-]. right.
    destruct (PyStr.truthy_opt cv0) as [close|] eqn:E.
    + apply truthy_opt_Some in E as [_ E]. by exists close.
    + by exists "CLOSE".
  - destruct columns as [[|x l]|]; try discriminate.
    destruct built; [cbn|discriminate]. intros [= <- <- <-]. by left.
  - intros [= <- <- <-]. by left.
  - destruct parsed as [df0|[]]; try discriminate; intros [= <- <- <-] || intros [=].
    by left.
Qed.

Lemma DATE_listed (o c : string) (required : list string)
    (optional : option (list string)) :
  PyStr.truthy o = true -> PyStr.truthy c = true ->
  "DATE" ∈ listed_names (Some (assemble o c required)) optional.
Proof.
  intros Ho Hc. apply elem_of_app. left. apply elem_of_to_dict.
  exists "DATE". split; [reflexivity|]. apply assemble_spec; auto.
Qed.

Lemma select_nonempty (label : string) (df : DataFrame V) :
  label ∈ columns df <-> select label df <> [].
Proof.
  unfold columns, select. induction (series df) as [|col cols IH].
  - split; [intros H; by apply elem_of_nil in H|done].
  - rewrite filter_cons. cbn [map]. rewrite elem_of_cons.
    destruct (decide (col.1 = label)) as [Heq|Hne]; cbn [map].
    + split; [discriminate|auto].
    + rewrite <- IH. split; [intros [Heq|Hin]; [congruence|exact Hin]|auto].
Qed.

(** The table of a dataset that was constructed, from the validated frame. *)
Lemma final_table (data1 data2 : DataFrame V) (stamps : list Z) :
  drop "DATE" (set_index stamps data1) = Ok data2 ->
  index data2 = DatetimeIndex stamps
  /\ forall l, l ∈ columns data2 <-> l ≠ "DATE" /\ l ∈ columns data1.
Proof.
  intros Hdrop. apply columns_after_drop in Hdrop as (_ & Hindex & Hseries).
  split; [exact Hindex|]. intros l. unfold columns. rewrite Hseries.
  apply elem_of_columns_without.
Qed.

Lemma validated_columns (data data1 : DataFrame V)
    (required optional : option (list string)) (l : string) :
  validate_columns data required optional = Ok data1 ->
  l ∈ columns data1 <-> l ∈ listed_names required optional /\ l ∈ columns data.
Proof.
  intros Hok. apply validate_success in Hok as [_ Hloop].
  apply series_after_loop in Hloop. rewrite Hloop. unfold columns. cbn [series].
  by apply (elem_of_columns_filter _ (fun x => x ∈ listed_names required optional)).
Qed.

(** X6. The table of a dataset constructed from data other than [None] has
    a datetime index and no DATE column, and each of its labels is a
    formatted name. *)
Theorem constructed_table_shape asset_type raw (columns : option (list string)) ds :
  __init__ to_datetimes today asset_type (Some raw) columns = Ok ds ->
  exists table stamps,
    data ds = Some table
    /\ index table = DatetimeIndex stamps
    /\ ("DATE" ∉ pd.columns table)
    /\ forall l, l ∈ pd.columns table -> column_format l = l.
Proof.
  intros Hok.
  apply init_success in Hok
    as (df & required & cv & o & c & single & data1 & stamps & data2
        & _ & _ & Hval & _ & _ & Hdrop & ->).
  apply final_table in Hdrop as [Hindex Hcols].
  exists data2, stamps. repeat split; auto.
  - intros Hin. by apply Hcols in Hin as [Hne _].
  - intros l Hl. apply Hcols in Hl as [_ Hl].
    apply (validated_columns _ _ _ _ _ Hval) in Hl as [_ Hl].
    by apply formatted_labels in Hl.
Qed.

(** X7. A dataset constructed from data other than [None] stores an open
    name and a close name that are formatted and not empty, equal when the
    dataset is single-valued; each of them labels a column of the table and
    can be read by subscript, unless it is DATE. *)
Theorem constructed_names asset_type raw (columns : option (list string)) ds :
  __init__ to_datetimes today asset_type (Some raw) columns = Ok ds ->
  exists o c table,
    open_value ds = Some o /\ close_value ds = Some c /\ data ds = Some table
    /\ PyStr.truthy o = true /\ PyStr.truthy c = true
    /\ column_format o = o /\ column_format c = c
    /\ (single_valued ds = Some true -> o = c)
    /\ forall name, name = o \/ name = c -> name <> "DATE" ->
         name ∈ pd.columns table
         /\ forall depth, __getitem__ depth ds name = Ok (select name table).
Proof.
  intros Hok.
  apply init_success in Hok
    as (df & required & cv & o & c & single & data1 & stamps & data2
        & _ & Hres & Hval & _ & _ & Hdrop & ->).
  destruct (resolve_truthy _ _ _ _ _ Hres) as [Ho Hc].
  destruct (resolve_formatted _ _ _ _ _ Hres) as (Hfo & Hfc & Hsingle).
  apply final_table in Hdrop as [_ Hcols].
  exists o, c, data2. cbn [data open_value close_value single_valued].
  do 7 (split; [auto|]). split; [intros [= ->]; by apply Hsingle|].
  intros name Hname Hne.
  assert (Hin : name ∈ pd.columns data2).
  { apply Hcols. split; [assumption|].
    assert (Hfixed : column_format name = name)
      by (destruct Hname as [Heq|Heq]; by rewrite Heq).
    assert (Hin : name ∈ assemble o c required)
      by (apply assemble_spec; auto; tauto).
    apply (validated_columns _ _ _ _ _ Hval). split.
    - apply elem_of_app. left. apply elem_of_to_dict. by exists name.
    - apply validate_success in Hval as [Hall _]. cbn [default] in Hall.
      rewrite <- Hfixed. by apply Hall. }
  split; [exact Hin|].
  intros depth. unfold __getitem__.
  rewrite (self_data_assigned depth _ data2) by reflexivity. cbn.
  apply select_nonempty in Hin. by destruct (select name data2).
Qed.

(** X8. Every column of the table of a constructed dataset is the open
    column, the close column, or a column the asset type lists as required
    or optional: a column under any other label is dropped. *)
Theorem constructed_columns_listed asset_type raw (columns : option (list string)) ds :
  __init__ to_datetimes today asset_type (Some raw) columns = Ok ds ->
  exists o c table,
    open_value ds = Some o /\ close_value ds = Some c /\ data ds = Some table
    /\ forall l, l ∈ pd.columns table ->
         l = o \/ l = c
         \/ l ∈ map column_format (default [] (s_required asset_type))
         \/ l ∈ map column_format (default [] (s_optional asset_type)).
Proof.
  intros Hok.
  apply init_success in Hok
    as (df & required & cv & o & c & single & data1 & stamps & data2
        & Hacq & Hres & Hval & _ & _ & Hdrop & ->).
  destruct (resolve_truthy _ _ _ _ _ Hres) as [Ho Hc].
  destruct (resolve_formatted _ _ _ _ _ Hres) as (Hfo & Hfc & _).
  apply final_table in Hdrop as [_ Hcols].
  exists o, c, data2. do 3 (split; [reflexivity|]).
  intros l Hl. apply Hcols in Hl as [Hne Hl].
  apply (validated_columns _ _ _ _ _ Hval) in Hl as [Hl _].
  apply elem_of_app in Hl as [Hl|Hl].
  - apply elem_of_to_dict in Hl as (r & -> & Hr). cbn [default] in Hr.
    apply assemble_spec in Hr as [->|[->|[->|Hr]]]; auto.
    + by destruct Hne.
    + apply acquire_names in Hacq as [[-> _]|(close & Hclose & -> & ->)].
      * do 2 right. left. apply elem_of_map in Hr as (x & -> & Hx).
        rewrite column_format_idempotent. apply elem_of_map. by exists x.
      * apply elem_of_cons in Hr as [->|Hr]; [by destruct Hne|].
        apply elem_of_cons in Hr as [->|Hr].
        -- right. left.
           assert (Hclose' : PyStr.truthy_opt (Some close) = Some close)
             by (cbn; by rewrite Hclose).
           unfold default_name, PyStr.truth in Hres.
           rewrite Hclose', andb_false_r in Hres.
           unfold resolve in Hres. rewrite Hclose' in Hres.
           destruct (PyStr.truthy_opt _) in Hres; by injection Hres as _ <- _.
        -- do 2 right. left. apply elem_of_map in Hr as (x & -> & Hx).
           rewrite column_format_idempotent. apply elem_of_map. by exists x.
  - do 3 right. unfold to_dict in Hl. by apply (proj1 (elem_of_keys _ _)) in Hl.
Qed.

(** X9. When the asset type names no open and no close column and the
    formatted frame has no OPEN and no CLOSE column, the construction
    raises the [ValueError] of line 136. *)
Theorem no_price_column_refused asset_type raw (columns : option (list string))
    (df : DataFrame V) (required : list string) (cv : option string) :
  acquire today raw columns
    (map column_format (default [] (s_required asset_type)))
    (s_close_value asset_type) = Ok (df, required, cv) ->
  PyStr.truth (s_open_value asset_type) = false ->
  PyStr.truth cv = false ->
  "OPEN" ∉ pd.columns (formatted df) ->
  "CLOSE" ∉ pd.columns (formatted df) ->
  __init__ to_datetimes today asset_type (Some raw) columns
  = Err (ValueError no_name_message).
Proof.
  intros Hacq Hopen Hclose Hno_open Hno_close.
  unfold __init__. rewrite Hacq. cbn. fold (formatted df).
  unfold default_name.
  rewrite (bool_decide_eq_false_2 _ Hno_open),
    (bool_decide_eq_false_2 _ Hno_close). cbn [andb].
  apply truth_false in Hopen, Hclose. unfold resolve.
  by rewrite Hopen, Hclose.
Qed.

(** X10. When the asset type names no open and no close column, the
    columns OPEN and CLOSE of the formatted frame are taken: with both in
    the frame the dataset is not single-valued; with CLOSE alone, CLOSE is
    the open column too. A construction that then returns stores these
    names. *)
Theorem default_price_columns asset_type raw (columns : option (list string))
    (df : DataFrame V) (required : list string) (cv : option string) :
  acquire today raw columns
    (map column_format (default [] (s_required asset_type)))
    (s_close_value asset_type) = Ok (df, required, cv) ->
  PyStr.truth (s_open_value asset_type) = false ->
  PyStr.truth cv = false ->
  "CLOSE" ∈ pd.columns (formatted df) ->
  forall ds,
    __init__ to_datetimes today asset_type (Some raw) columns = Ok ds ->
    close_value ds = Some "CLOSE"
    /\ ("OPEN" ∈ pd.columns (formatted df) ->
        open_value ds = Some "OPEN" /\ single_valued ds = Some false)
    /\ ("OPEN" ∉ pd.columns (formatted df) ->
        open_value ds = Some "CLOSE" /\ single_valued ds = Some true).
Proof.
  intros Hacq Hopen Hclose Hin ds Hds.
  assert (Hck : default_name "CLOSE" (formatted df) cv = Some "CLOSE").
  { unfold default_name. by rewrite (bool_decide_eq_true_2 _ Hin), Hclose. }
  destruct (decide ("OPEN" ∈ pd.columns (formatted df))) as [Hyes|Hno].
  - assert (Hok : default_name "OPEN" (formatted df) (s_open_value asset_type)
                  = Some "OPEN").
    { unfold default_name. by rewrite (bool_decide_eq_true_2 _ Hyes), Hopen. }
    destruct (init_stores_resolution to_datetimes today asset_type raw columns
                df required cv "OPEN" "CLOSE" false ds Hacq) as (H1 & H2 & H3);
      [fold (formatted df); by rewrite Hok, Hck|exact Hds|].
    repeat split; auto; tauto.
  - assert (Hok : PyStr.truthy_opt
                    (default_name "OPEN" (formatted df) (s_open_value asset_type))
                  = None).
    { unfold default_name. rewrite (bool_decide_eq_false_2 _ Hno). cbn [andb].
      by apply truth_false. }
    destruct (init_stores_resolution to_datetimes today asset_type raw columns
                df required cv "CLOSE" "CLOSE" true ds Hacq) as (H1 & H2 & H3);
      [fold (formatted df); unfold resolve; by rewrite Hok, Hck|exact Hds|].
    repeat split; auto; tauto.
Qed.

(** X11. A frame that, once formatted, has no DATE column (so it has no
    datetime index either) never becomes a dataset: the construction
    raises [ValueError], and when an open or a close column was found the
    message shows DATE among the missing columns. *)
Theorem undated_frame_refused asset_type raw (columns : option (list string))
    (df : DataFrame V) (required : list string) (cv : option string) :
  acquire today raw columns
    (map column_format (default [] (s_required asset_type)))
    (s_close_value asset_type) = Ok (df, required, cv) ->
  "DATE" ∉ pd.columns (formatted df) ->
  exists msg,
    __init__ to_datetimes today asset_type (Some raw) columns
    = Err (ValueError msg)
    /\ (is_ok (resolve
                (default_name "OPEN" (formatted df) (s_open_value asset_type))
                (default_name "CLOSE" (formatted df) cv)) = true ->
        PyStr.occurs "'DATE'" msg).
Proof.
  intros Hacq Hno. unfold __init__. rewrite Hacq. cbn [mbind result_bind].
  fold (formatted df).
  destruct (resolve _ _) as [[[o c] single]|e] eqn:Hres.
  - cbn [mbind result_bind].
    destruct (resolve_truthy _ _ _ _ _ Hres) as [Ho Hc].
    rewrite (both_required_assembled _ _ _ Ho Hc). cbn [negb].
    unfold validate_columns.
    change (default [] (Some (assemble o c required)))
      with (assemble o c required).
    set (unsatisfied := filter (fun column => column ∉ pd.columns (formatted df))
                               (to_dict (assemble o c required))).
    assert (Hin : "DATE" ∈ unsatisfied).
    { apply list_elem_of_filter. split; [exact Hno|].
      apply elem_of_to_dict. exists "DATE". split; [reflexivity|].
      apply assemble_spec; auto. }
    rewrite bool_decide_eq_false_2; cycle 1.
    { intros Hnil. rewrite Hnil in Hin. by apply elem_of_nil in Hin. }
    cbn. eexists. split; [reflexivity|]. intros _.
    apply occurs_prepend. by apply (list_body_shows unsatisfied "DATE").
  - unfold resolve in Hres.
    destruct (PyStr.truthy_opt _), (PyStr.truthy_opt _); try discriminate.
    injection Hres as <-. cbn. eexists. split; [reflexivity|]. discriminate.
Qed.

Lemma select_listed (label : string) (listed : list string)
    (cols : list (string * list (cell V))) :
  label ∈ listed ->
  filter (fun col => col.1 = label) (filter (fun col => col.1 ∈ listed) cols)
  = filter (fun col => col.1 = label) cols.
Proof.
  intros Hin. rewrite list_filter_filter. apply list_filter_iff.
  intros col. split; [tauto|]. intros Heq. split; [exact Heq|]. by rewrite Heq.
Qed.

(** X12. The index of the table of a constructed dataset is what
    [pd.DatetimeIndex] makes of the DATE column of the formatted frame;
    when that is a single column of datetimes, these are the index. *)
Theorem constructed_index asset_type raw (columns : option (list string)) ds
    (df : DataFrame V) (required : list string) (cv : option string) :
  acquire today raw columns
    (map column_format (default [] (s_required asset_type)))
    (s_close_value asset_type) = Ok (df, required, cv) ->
  __init__ to_datetimes today asset_type (Some raw) columns = Ok ds ->
  exists table stamps,
    data ds = Some table
    /\ index table = DatetimeIndex stamps
    /\ to_datetimes (select "DATE" (formatted df)) = Ok stamps
    /\ forall dates,
         select "DATE" (formatted df) = [map Stamp dates] ->
         (forall l, to_datetimes [map Stamp l] = Ok l) ->
         stamps = dates.
Proof.
  intros Hacq Hok.
  apply init_success in Hok
    as (df' & required' & cv' & o & c & single & data1 & stamps & data2
        & Hacq' & Hres & Hval & _ & Hconv & Hdrop & ->).
  rewrite Hacq in Hacq'. injection Hacq' as <- <- <-.
  destruct (resolve_truthy _ _ _ _ _ Hres) as [Ho Hc].
  apply final_table in Hdrop as [Hindex _].
  assert (Hsel : select "DATE" data1 = select "DATE" (formatted df)).
  { apply validate_success in Hval as [_ Hloop].
    apply series_after_loop in Hloop. rewrite Hloop.
    unfold select. cbn [series]. f_equal.
    apply select_listed. by apply DATE_listed. }
  rewrite Hsel in Hconv.
  exists data2, stamps. repeat split; auto.
  intros dates Hdates Hfaithful. rewrite Hdates, Hfaithful in Hconv.
  by injection Hconv.
Qed.

Lemma filter_nonempty_of_elem (label : string)
    (cols : list (string * list (cell V))) :
  label ∈ map fst cols -> filter (fun col => col.1 = label) cols <> [].
Proof.
  intros Hin Hnil. apply (list_elem_of_fmap fst) in Hin as (col & -> & Hcol).
  assert (Hc : col ∈ filter (fun col' => col'.1 = col.1) cols)
    by (by apply list_elem_of_filter).
  rewrite Hnil in Hc. by apply elem_of_nil in Hc.
Qed.

(** The DATE column of the formatted frame, for a frame with a datetime
    index: the datetimes of the index. *)
Lemma select_DATE_of_index (df : DataFrame V) (dates : list Z) :
  index df = DatetimeIndex dates ->
  (forall l, l ∈ pd.columns df -> column_format l = "DATE" -> l = "DATE") ->
  length (filter (fun col => col.1 = "DATE") (series df)) <= 1 ->
  select "DATE" (formatted df) = [map Stamp dates].
Proof.
  intros Hindex Honly Hone.
  unfold formatted, date_from_index. rewrite Hindex.
  unfold select, rename, setitem. cbn [series].
  set (cells := map Stamp dates).
  assert (Hiff : forall col : string * list (cell V),
             col ∈ series df -> column_format col.1 = "DATE" <-> col.1 = "DATE").
  { intros col Hcol. split; [|by intros ->].
    apply Honly. by apply label_in_columns. }
  destruct (bool_decide ("DATE" ∈ pd.columns df)) eqn:Ein.
  - apply bool_decide_eq_true_1 in Ein.
    assert (Hgen : forall cols : list (string * list (cell V)),
      (forall col, col ∈ cols -> column_format col.1 = "DATE" <-> col.1 = "DATE") ->
      map snd (filter (fun col => col.1 = "DATE")
                 (map (fun col => (column_format col.1, col.2))
                    (map (fun col => if bool_decide (col.1 = "DATE")
                                     then (col.1, cells) else col) cols)))
      = map (fun _ => cells) (filter (fun col => col.1 = "DATE") cols)).
    { induction cols as [|col cols IH]; intros Hc; [reflexivity|].
      cbn [map]. rewrite !filter_cons.
      assert (Hcol : column_format col.1 = "DATE" <-> col.1 = "DATE")
        by (apply Hc; left).
      assert (IH' := IH (fun x Hx => Hc x (list_elem_of_further _ _ _ Hx))).
      destruct (bool_decide (col.1 = "DATE")) eqn:E.
      - apply bool_decide_eq_true_1 in E. cbn [fst snd].
        destruct (decide (column_format col.1 = "DATE")); [|tauto].
        destruct (decide (col.1 = "DATE")); [|tauto].
        cbn [map snd]. by rewrite IH'.
      - apply bool_decide_eq_false_1 in E. cbn [fst snd].
        destruct (decide (column_format col.1 = "DATE")); [tauto|].
        destruct (decide (col.1 = "DATE")); [tauto|]. exact IH'. }
    rewrite (Hgen (series df) Hiff).
    pose proof (filter_nonempty_of_elem "DATE" (series df) Ein) as Hne.
    destruct (filter (fun col => col.1 = "DATE") (series df)) as [|x [|y l]];
      [done|reflexivity|cbn in Hone; lia].
  - apply bool_decide_eq_false_1 in Ein.
    rewrite map_app, filter_app. cbn [map].
    rewrite filter_none; cycle 1.
    { intros col Hcol Hlabel.
      apply (list_elem_of_fmap (fun col => (column_format col.1, col.2)))
        in Hcol as (col0 & -> & Hcol0).
      cbn [fst] in Hlabel. apply Hiff in Hlabel; [|exact Hcol0].
      apply Ein. rewrite <- Hlabel. by apply label_in_columns. }
    reflexivity.
Qed.

(** X13. The datetime index of a frame is the index of the table of the
    dataset constructed from it, when DATE labels at most one column of the
    frame and no other label formats to DATE. *)
Theorem datetime_index_kept asset_type raw (columns : option (list string)) ds
    (df : DataFrame V) (required : list string) (cv : option string)
    (dates : list Z) :
  acquire today raw columns
    (map column_format (default [] (s_required asset_type)))
    (s_close_value asset_type) = Ok (df, required, cv) ->
  index df = DatetimeIndex dates ->
  (forall l, l ∈ pd.columns df -> column_format l = "DATE" -> l = "DATE") ->
  length (filter (fun col => col.1 = "DATE") (series df)) <= 1 ->
  (forall l, to_datetimes [map Stamp l] = Ok l) ->
  __init__ to_datetimes today asset_type (Some raw) columns = Ok ds ->
  exists table, data ds = Some table /\ index table = DatetimeIndex dates.
Proof.
  intros Hacq Hindex Honly Hone Hfaithful Hok.
  apply init_success in Hok
    as (df' & required' & cv' & o & c & single & data1 & stamps & data2
        & Hacq' & Hres & Hval & _ & Hconv & Hdrop & ->).
  rewrite Hacq in Hacq'. injection Hacq' as <- <- <-.
  destruct (resolve_truthy _ _ _ _ _ Hres) as [Ho Hc].
  apply final_table in Hdrop as [Hidx _].
  assert (Hsel : select "DATE" data1 = select "DATE" (formatted df)).
  { apply validate_success in Hval as [_ Hloop].
    apply series_after_loop in Hloop. rewrite Hloop.
    unfold select. cbn [series]. f_equal.
    apply select_listed. by apply DATE_listed. }
  rewrite Hsel, (select_DATE_of_index df dates Hindex Honly Hone), Hfaithful
    in Hconv.
  injection Hconv as <-. by exists data2.
Qed.

End Constructor.





Section Lookup.
Context {V : Type}.
Variable to_datetimes : list (list (cell V)) -> result (list Z).
Variable today : Z.
Hypothesis to_datetimes_finds :
  forall selection, to_datetimes selection <> Err FileNotFoundError.

Lemma validate_error (data : DataFrame V) (required optional : option (list string))
    (e : exn) :
  validate_columns data required optional = Err e -> e <> FileNotFoundError.
Proof.
  unfold validate_columns. destruct (negb _).
  - by intros [= <-].
  - intros Hloop. by apply drop_unlisted_error in Hloop as [k ->].
Qed.

(** The constructor raises [FileNotFoundError] only when the call it makes
    to read its data does. *)
Lemma init_file_not_found (asset_type : Settings) (raw : RawData V)
    (columns : option (list string)) :
  __init__ to_datetimes today asset_type (Some raw) columns
  = Err FileNotFoundError ->
  (exists shown, raw = ROther shown (Err FileNotFoundError))
  \/ (exists k, raw = RSequence k (Err FileNotFoundError)).
Proof.
  unfold __init__.
  destruct (acquire _ _ _ _ _) as [[[df required] cv]|e] eqn:Hacq.
  - cbn [mbind result_bind].
    destruct (resolve _ _) as [[[o c] single]|e] eqn:Hres.
    + cbn [mbind result_bind]. destruct (negb _); [discriminate|].
      destruct (validate_columns _ _ _) as [data1|e] eqn:Hval.
      * cbn [mbind result_bind].
        destruct (select "DATE" data1) as [|col sel]; [discriminate|].
        destruct (to_datetimes (col :: sel)) as [stamps|e] eqn:Hconv.
        -- cbn [mbind result_bind]. unfold drop.
           destruct (bool_decide _); discriminate.
        -- cbn. intros [= ->]. by apply to_datetimes_finds in Hconv.
      * cbn. intros [= ->]. by apply validate_error in Hval.
    + cbn. unfold resolve in Hres.
      destruct (PyStr.truthy_opt _), (PyStr.truthy_opt _); try discriminate.
      injection Hres as <-. discriminate.
  - cbn. intros [= ->]. destruct raw as [v|k built|df0|shown parsed]; cbn in Hacq.
    + discriminate.
    + destruct columns as [[|x l]|]; try discriminate.
      destruct built as [|e]; [discriminate|]. injection Hacq as ->.
      right. by exists k.
    + discriminate.
    + destruct parsed as [|[]]; try discriminate. left. by exists shown.
Qed.

(** A path that was read is treated as the frame read from it. *)
Lemma init_of_parsed (asset_type : Settings) (shown : string) (df : DataFrame V)
    (columns : option (list string)) :
  __init__ to_datetimes today asset_type (Some (ROther shown (Ok df))) columns
  = __init__ to_datetimes today asset_type (Some (RFrame df)) columns.
Proof. reflexivity. Qed.

Variable asset_type : Settings.
Variable read_pickle : string -> result (option (RawData V)).
Variable read_table : string -> result (DataFrame V).

(** X14. [get_data] returns [None] when neither the pickle nor the raw file
    exists, and it returns [None] only when the raw file does not exist. *)
Theorem get_data_none (key : string) :
  (read_pickle (pickle_path key) = Err FileNotFoundError ->
   read_table (raw_path key) = Err FileNotFoundError ->
   get_data to_datetimes today asset_type (Some key) read_pickle read_table
   = Ok None)
  /\ (get_data to_datetimes today asset_type (Some key) read_pickle read_table
      = Ok None ->
      read_table (raw_path key) = Err FileNotFoundError).
Proof.
  unfold get_data. split.
  - intros -> ->. reflexivity.
  - destruct (_ ≫= _) as [ds|e]; [discriminate|].
    destruct e; try discriminate.
    destruct (__init__ _ _ _ (Some (ROther _ _)) _) as [ds|e] eqn:Hinit;
      [discriminate|].
    destruct e; try discriminate. intros _.
    apply init_file_not_found in Hinit as [(shown & [= _ Hraw])|(k & [=])].
    exact Hraw.
Qed.

(** X15. When the pickle holds a frame, [get_data] is the construction of a
    dataset from that frame, its exceptions included: the raw file is not
    looked at. When there is no pickle and the raw file can be read,
    [get_data] is the construction from the frame that was read. *)
Theorem get_data_source (key : string) (df : DataFrame V) :
  (read_pickle (pickle_path key) = Ok (Some (RFrame df)) ->
   get_data to_datetimes today asset_type (Some key) read_pickle read_table
   = ds ← __init__ to_datetimes today asset_type (Some (RFrame df)) None;
     Ok (Some ds))
  /\ (read_pickle (pickle_path key) = Err FileNotFoundError ->
      read_table (raw_path key) = Ok df ->
      get_data to_datetimes today asset_type (Some key) read_pickle read_table
      = ds ← __init__ to_datetimes today asset_type (Some (RFrame df)) None;
        Ok (Some ds)).
Proof.
  unfold get_data. split.
  - intros ->. cbn [mbind result_bind].
    destruct (__init__ _ _ _ _ _) as [ds|e] eqn:Hinit; [reflexivity|].
    destruct e; try reflexivity.
    by apply init_file_not_found in Hinit as [(shown & [=])|(k & [=])].
  - intros -> ->. cbn [mbind result_bind]. rewrite init_of_parsed.
    destruct (__init__ _ _ _ _ _) as [ds|e] eqn:Hinit; [reflexivity|].
    destruct e; try reflexivity.
    by apply init_file_not_found in Hinit as [(shown & [=])|(k & [=])].
Qed.

(** X16. When there is no pickle and the raw file exists but cannot be
    parsed, [get_data] does not return [None]: it raises the [ValueError]
    of line 114, which shows the path of the raw file. *)
Theorem get_data_unreadable (key : string) (e : exn) :
  read_pickle (pickle_path key) = Err FileNotFoundError ->
  read_table (raw_path key) = Err e ->
  e = TypeError \/ (exists msg, e = ValueError msg) ->
  get_data to_datetimes today asset_type (Some key) read_pickle read_table
  = Err (ValueError ("Unable to create valid asset dataset from "
                     ++ raw_path key)).
Proof.
  intros Hpickle Hraw He. unfold get_data. rewrite Hpickle, Hraw.
  cbn [mbind result_bind]. unfold __init__, acquire.
  destruct He as [->|[msg ->]]; reflexivity.
Qed.

End Lookup.

End DatasetFacts.

(** ** More on the asset module *)

Module AssetFacts.

Import pd Finance FinanceFacts.

Section Enumeration.

Lemma lookup_member_tag (TYPES : list member) (TYPE : string) (x : member) :
  lookup_member TYPES TYPE = Ok x -> tag x = TYPE /\ x ∈ TYPES.
Proof.
  unfold lookup_member.
  destruct (filter (fun y => tag y = TYPE) TYPES) as [|y l] eqn:E; [discriminate|].
  intros [= <-].
  assert (Hy : y ∈ filter (fun y => tag y = TYPE) TYPES) by (rewrite E; left).
  by apply list_elem_of_filter in Hy.
Qed.

(** What a class statement does to the enumeration, for a class that is
    registered. *)
Lemma registered_class (TYPES : list member) (cls : declaration) :
  (ABC ∉ __bases__ cls) /\ (Hidden ∉ __bases__ cls) ->
  let TYPE := PyStr.upper (__name__ cls) in
  __init_subclass__ TYPES cls
  = Ok (if bool_decide (TYPE ∈ map tag TYPES) then TYPES
        else extend_enum TYPES TYPE, TYPE).
Proof.
  intros Hno TYPE. unfold __init_subclass__. fold TYPE.
  apply markers_absent in Hno. rewrite Hno.
  destruct (bool_decide (TYPE ∈ map tag TYPES)) eqn:E; cbn [negb].
  - apply bool_decide_eq_true_1 in E.
    destruct (lookup_member_present _ _ E) as (x & Hlook & Htag).
    rewrite Hlook. cbn. by rewrite Htag.
  - assert (Hin : TYPE ∈ map tag (extend_enum TYPES TYPE)).
    { rewrite tags_extend_enum. apply elem_of_app. right. left. }
    destruct (lookup_member_present _ _ Hin) as (x & Hlook & Htag).
    rewrite Hlook. cbn. by rewrite Htag.
Qed.

Lemma skipped_class (TYPES : list member) (cls : declaration) :
  ABC ∈ __bases__ cls \/ Hidden ∈ __bases__ cls ->
  __init_subclass__ TYPES cls = Ok (TYPES, default UNDEFINED (inherited cls)).
Proof.
  intros Hmarker. unfold __init_subclass__.
  destruct (forallb _ _) eqn:Hall.
  - apply markers_absent in Hall. tauto.
  - cbn. by destruct (inherited cls).
Qed.

Lemma class_cases (cls : declaration) :
  (ABC ∈ __bases__ cls \/ Hidden ∈ __bases__ cls)
  \/ ((ABC ∉ __bases__ cls) /\ (Hidden ∉ __bases__ cls)).
Proof.
  destruct (decide (ABC ∈ __bases__ cls)), (decide (Hidden ∈ __bases__ cls));
    tauto.
Qed.

(** X17. A class statement never fails and never disturbs the
    enumeration: every member stays, in place and with its instances, and
    at most one member is added, at the end, named by the class name in
    upper case and with no instance. *)
Theorem declaration_extends (TYPES : list member) (cls : declaration) :
  exists TYPES' type,
    __init_subclass__ TYPES cls = Ok (TYPES', type)
    /\ (TYPES' = TYPES
        \/ ((PyStr.upper (__name__ cls) ∉ map tag TYPES)
            /\ TYPES' = (TYPES ++ [{| tag := PyStr.upper (__name__ cls);
                                      instances := ∅ |}])%list)).
Proof.
  destruct (class_cases cls) as [Hskip|Hreg].
  - rewrite (skipped_class _ _ Hskip). eexists _, _. split; [reflexivity|by left].
  - rewrite (registered_class _ _ Hreg). eexists _, _. split; [reflexivity|].
    destruct (bool_decide _) eqn:E; [by left|right].
    apply bool_decide_eq_false_1 in E. by split.
Qed.

(** X18. The tag a class statement assigns names a member of the
    enumeration, as long as [UNDEFINED] is a member and the tag inherited
    from an ancestor, if any, is one. *)
Theorem assigned_tag_is_member (TYPES TYPES' : list member) (cls : declaration)
    (type : string) :
  UNDEFINED ∈ map tag TYPES ->
  (forall t, inherited cls = Some t -> t ∈ map tag TYPES) ->
  __init_subclass__ TYPES cls = Ok (TYPES', type) ->
  type ∈ map tag TYPES'
  /\ exists x, lookup_member TYPES' type = Ok x /\ tag x = type.
Proof.
  intros Hundef Hinh Hrun.
  assert (Hin : type ∈ map tag TYPES').
  { destruct (class_cases cls) as [Hskip|Hreg].
    - rewrite (skipped_class _ _ Hskip) in Hrun. injection Hrun as <- <-.
      destruct (inherited cls) as [t|]; cbn; auto.
    - rewrite (registered_class _ _ Hreg) in Hrun. injection Hrun as <- <-.
      destruct (bool_decide _) eqn:E.
      + by apply bool_decide_eq_true_1 in E.
      + rewrite tags_extend_enum. apply elem_of_app. right. left. }
  split; [exact Hin|]. by apply lookup_member_present.
Qed.

(** X19. Two registered classes whose names agree in upper case get one
    tag: the statement for the second leaves the enumeration as the first
    left it and assigns the same tag, so the two classes share one map of
    instances. *)
Theorem same_upper_name_same_tag (TYPES : list member) (cls1 cls2 : declaration) :
  (ABC ∉ __bases__ cls1) /\ (Hidden ∉ __bases__ cls1) ->
  (ABC ∉ __bases__ cls2) /\ (Hidden ∉ __bases__ cls2) ->
  PyStr.upper (__name__ cls1) = PyStr.upper (__name__ cls2) ->
  exists TYPES' type,
    __init_subclass__ TYPES cls1 = Ok (TYPES', type)
    /\ __init_subclass__ TYPES' cls2 = Ok (TYPES', type).
Proof.
  intros H1 H2 Hname.
  rewrite (registered_class _ _ H1). eexists _, _. split; [reflexivity|].
  rewrite (registered_class _ _ H2). rewrite <- Hname.
  set (TYPE := PyStr.upper (__name__ cls1)).
  destruct (bool_decide (TYPE ∈ map tag TYPES)) eqn:E.
  - by rewrite E.
  - rewrite bool_decide_eq_true_2; [reflexivity|].
    rewrite tags_extend_enum. apply elem_of_app. right. left.
Qed.

End Enumeration.

Section Registration.
Context {V : Type}.
Implicit Types (st : state V).

(** X20. The check of lines 82 to 90 ends without an exception exactly
    when the name is new and duplicates are not allowed; it then adds the
    object under its name and changes nothing else. In every other case
    it raises and leaves the instances and the object as they were. *)
Theorem register_outcome (type : string) (this : ident) (name : string)
    (allow_duplicates : bool) st :
  ((register type this name allow_duplicates st).2 = None
   <-> allow_duplicates = false /\ name ∉ dom (registered st))
  /\ (allow_duplicates = false -> name ∉ dom (registered st) ->
      register type this name allow_duplicates st
      = ({| self := self st; registered := <[name := this]> (registered st) |},
         None))
  /\ (forall e, (register type this name allow_duplicates st).2 = Some e ->
                (register type this name allow_duplicates st).1 = st).
Proof.
  destruct allow_duplicates.
  - rewrite register_allowing_duplicates. cbn. repeat split; try discriminate.
    by intros [[=] _].
  - destruct (decide (name ∈ dom (registered st))) as [Hin|Hnin].
    + unfold register, duplication.
      rewrite (bool_decide_eq_true_2 _ Hin). cbn [negb].
      destruct (its_name (self st)); cbn; repeat split; try discriminate;
        try tauto; by intros [_ ?].
    + rewrite (register_new _ _ _ _ Hnin). cbn. repeat split; try discriminate;
        auto.
Qed.

(** X21. After a registration that ends without an exception the object
    is found under its name, by subscript on the tag and by attribute on
    the map; every other name leads where it led before. *)
Theorem register_then_lookup (type : string) (this : ident) (name : string) st :
  name ∉ dom (registered st) ->
  let after := registered (register type this name false st).1 in
  member_getitem {| tag := type; instances := after |} name = Ok this
  /\ Instances_getattr type after name = Ok this
  /\ forall other, other <> name ->
       member_getitem {| tag := type; instances := after |} other
       = member_getitem {| tag := type; instances := registered st |} other
       /\ Instances_getattr type after other
          = Instances_getattr type (registered st) other.
Proof.
  intros Hnin after. subst after. rewrite (register_new _ _ _ _ Hnin).
  unfold member_getitem, Instances_getattr. cbn [fst registered instances].
  rewrite lookup_insert_eq. repeat split; try reflexivity;
    by rewrite lookup_insert_ne.
Qed.

End Registration.

Section Valuating.
Context {V : Type}.
Variable fromisoformat : string -> option Z.
Variable _valuate : Asset V -> result (Asset V * value V).
Variable depth : nat.
Implicit Types (self : Asset V) (df : DataFrame V).

(** Valuation of an asset whose table has a row and a column: the as-of
    row of the table, then the cell under the valuation label. *)
Lemma valuate_with_table self df (date : date_input) :
  Datatools.data (data self) = Some df ->
  empty df = false ->
  valuate fromisoformat _valuate depth self date
  = d ← _normalize_date_input fromisoformat self date;
    row ← (if bool_decide ("asof" ∈ columns df) then Err TypeError
           else pd.asof df d);
    p ← getitem row (valuate_on self);
    Ok (set_current_price self p, p).
Proof.
  intros Hdata Hnonempty. unfold valuate, _data_valuate, Datatools.asof.
  destruct (_normalize_date_input _ _ _) as [d|e]; [|reflexivity].
  cbn [mbind result_bind _normalize_date_input].
  rewrite (DatatoolsFacts.bool_of_table _ _ _ Hdata), Hnonempty.
  cbn [negb mbind result_bind].
  by rewrite (DatatoolsFacts.self_data_assigned _ _ _ Hdata).
Qed.

Lemma nonempty_table df (stamps : list Z) :
  index df = DatetimeIndex stamps -> stamps <> [] -> series df <> [] ->
  empty df = false.
Proof.
  intros Hindex Hs Hc. unfold empty. rewrite Hindex. cbn [index_length].
  by destruct stamps, (series df).
Qed.

Lemma last_of_complete (P : nat -> Prop) `{!forall i, Decision (P i)} (n i : nat) :
  i < n -> P i -> (forall j, i < j -> j < n -> ~ P j) ->
  last (filter P (seq 0 n)) = Some i.
Proof.
  intros Hlt Hi Hafter.
  replace n with (S i + (n - S i)) by lia.
  rewrite seq_app, filter_app.
  rewrite (DatatoolsFacts.filter_none P (seq (0 + S i) (n - S i))).
  - rewrite app_nil_r. by apply last_complete.
  - intros j Hj. apply list_elem_of_In, in_seq in Hj.
    apply Hafter; lia.
Qed.

(** X22. With a sorted index, valuation at a date returns, and stores as
    the price, the cell of the valuation column in the most recent row at
    or before the date that has no missing value: rows after the date are
    not looked at, and rows with a missing value are passed over. *)
Theorem valuate_most_recent self df (stamps : list Z) (cells : list (cell V))
    (d t : Z) (i : nat) :
  Datatools.data (data self) = Some df ->
  index df = DatetimeIndex stamps ->
  is_monotonic_increasing stamps = true ->
  "asof" ∉ columns df ->
  filter (fun col => col.1 = valuate_on self) (series df)
  = [(valuate_on self, cells)] ->
  stamps !! i = Some t -> (t <= d)%Z ->
  has_nan (row_at df i) = false ->
  (forall j t', i < j -> stamps !! j = Some t' -> (t' <= d)%Z ->
                has_nan (row_at df j) = true) ->
  let p := Scalar (default NaN (cells !! i)) in
  valuate fromisoformat _valuate depth self (Datetime d)
  = Ok (set_current_price self p, p).
Proof.
  intros Hdata Hindex Hmono Hasof Hcol Hi Hle Hcomplete Hafter p.
  assert (Hlen : i < length stamps) by (by apply lookup_lt_Some in Hi).
  assert (Hne : stamps <> []) by (intros ->; cbn in Hlen; lia).
  assert (Hseries : series df <> []) by (intros E; by rewrite E in Hcol).
  rewrite (valuate_with_table self df _ Hdata
             (nonempty_table df stamps Hindex Hne Hseries)).
  cbn [_normalize_date_input mbind result_bind].
  rewrite (bool_decide_eq_false_2 _ Hasof).
  unfold pd.asof. rewrite Hindex, Hmono. cbn [negb].
  destruct stamps as [|start rest]; [done|].
  assert (Hstart : (start <= t)%Z).
  { apply (monotonic_head_le start rest t Hmono).
    by apply list_elem_of_lookup_2 in Hi. }
  assert (Hge : (d <? start)%Z = false) by (apply Z.ltb_ge; lia).
  rewrite Hge.
  rewrite (last_of_complete _ (length (start :: rest)) i Hlen); cycle 1.
  { split; [by rewrite Hi|exact Hcomplete]. }
  { intros j Hij Hj [Hjd Hjc].
    destruct (lookup_lt_is_Some_2 (start :: rest) j Hj) as [t' Ht'].
    rewrite Ht' in Hjd. cbn in Hjd.
    rewrite (Hafter j t' Hij Ht' Hjd) in Hjc. discriminate. }
  cbn [mbind result_bind]. unfold row_at.
  rewrite (getitem_relabelled (fun col => default NaN (col.2 !! i)) _ _ _ Hcol).
  reflexivity.
Qed.

(** X23. The constructor does not sort, and valuation needs sorted dates:
    for an asset whose table has a column and an index that is not in
    ascending order, valuation at any date raises the [ValueError] of
    [asof]. *)
Theorem valuate_unsorted self df (stamps : list Z) (d : Z) :
  Datatools.data (data self) = Some df ->
  index df = DatetimeIndex stamps ->
  is_monotonic_increasing stamps = false ->
  series df <> [] ->
  "asof" ∉ columns df ->
  valuate fromisoformat _valuate depth self (Datetime d)
  = Err (ValueError "asof requires a sorted index")
  /\ valuate fromisoformat _valuate depth self NoDate
     = Err (ValueError "asof requires a sorted index").
Proof.
  intros Hdata Hindex Hmono Hseries Hasof.
  assert (Hne : stamps <> []) by (intros ->; discriminate).
  rewrite !(valuate_with_table self df _ Hdata
              (nonempty_table df stamps Hindex Hne Hseries)).
  cbn [_normalize_date_input mbind result_bind].
  rewrite (bool_decide_eq_false_2 _ Hasof).
  unfold pd.asof. rewrite Hindex, Hmono. by split.
Qed.

(** X24. A data-driven valuation changes the price and nothing else, it
    returns the price it stores, and valuating again at the same date
    changes nothing more and returns the same price. *)
Theorem valuate_again self df (date : date_input) (self' : Asset V) (p : value V) :
  Datatools.data (data self) = Some df ->
  empty df = false ->
  valuate fromisoformat _valuate depth self date = Ok (self', p) ->
  self' = set_current_price self p
  /\ price self' = p
  /\ valuate fromisoformat _valuate depth self' date = Ok (self', p).
Proof.
  intros Hdata Hnonempty Hrun.
  pose proof Hrun as Hrun'.
  rewrite (valuate_with_table self df _ Hdata Hnonempty) in Hrun.
  destruct (_normalize_date_input _ self date) as [d|] eqn:Hd; [|discriminate].
  cbn [mbind result_bind] in Hrun.
  destruct (if bool_decide _ then _ else _) as [row|] eqn:Hrow; [|discriminate].
  cbn [mbind result_bind] in Hrun.
  destruct (getitem row (valuate_on self)) as [q|] eqn:Hq; [|discriminate].
  cbn in Hrun. injection Hrun as <- <-.
  split; [reflexivity|]. split; [reflexivity|].
  rewrite (valuate_with_table (set_current_price self q) df _ Hdata Hnonempty).
  assert (Hd' : _normalize_date_input fromisoformat (set_current_price self q) date
                = Ok d) by (by destruct date).
  rewrite Hd'. cbn [mbind result_bind]. rewrite Hrow. cbn [mbind result_bind].
  cbn [valuate_on set_current_price]. rewrite Hq. reflexivity.
Qed.

(** X25. When the valuation label is not a column of the table, valuation
    raises [KeyError] for that label at every date, for a table with a
    sorted index, a row and a column. *)
Theorem valuate_unknown_column self df (stamps : list Z) (d : Z) :
  Datatools.data (data self) = Some df ->
  index df = DatetimeIndex stamps ->
  stamps <> [] ->
  is_monotonic_increasing stamps = true ->
  series df <> [] ->
  "asof" ∉ columns df ->
  valuate_on self ∉ columns df ->
  valuate fromisoformat _valuate depth self (Datetime d)
  = Err (KeyError (valuate_on self)).
Proof.
  intros Hdata Hindex Hne Hmono Hseries Hasof Hcol.
  rewrite (valuate_with_table self df _ Hdata
             (nonempty_table df stamps Hindex Hne Hseries)).
  cbn [_normalize_date_input mbind result_bind].
  rewrite (bool_decide_eq_false_2 _ Hasof).
  assert (Hrow : forall g : string * list (cell V) -> cell V,
            getitem (map (fun col => (col.1, g col)) (series df)) (valuate_on self)
            = Err (KeyError (valuate_on self))).
  { intros g. unfold getitem. rewrite filter_relabelled.
    rewrite DatatoolsFacts.filter_none; [reflexivity|].
    intros col Hin Hlabel. apply Hcol. rewrite <- Hlabel.
    by apply (list_elem_of_fmap_2 fst). }
  unfold pd.asof. rewrite Hindex, Hmono. cbn [negb].
  destruct stamps as [|start rest]; [done|].
  destruct (d <? start)%Z;
    [cbn [mbind result_bind]; unfold nan_row; by rewrite Hrow|].
  destruct (last _) as [i|]; cbn [mbind result_bind];
    unfold row_at, nan_row; by rewrite Hrow.
Qed.

(** X26. Valuation dispatches on the dataset. With a table that has no
    row or no column the result is the formula's, whatever well-formed
    date is passed; with a dataset constructed from [None], whose table
    was never assigned, valuation raises [RecursionError] and the formula
    is not reached. *)
Theorem valuate_without_table self (d : Z) :
  (forall df, Datatools.data (data self) = Some df -> empty df = true ->
     valuate fromisoformat _valuate depth self (Datetime d) = _valuate self
     /\ valuate fromisoformat _valuate depth self NoDate = _valuate self)
  /\ (Datatools.data (data self) = None ->
      valuate fromisoformat _valuate depth self (Datetime d) = Err RecursionError
      /\ valuate fromisoformat _valuate depth self NoDate = Err RecursionError).
Proof.
  split.
  - intros df Hdata Hempty. unfold valuate.
    cbn [_normalize_date_input mbind result_bind].
    by rewrite (DatatoolsFacts.bool_of_table _ _ _ Hdata), Hempty.
  - intros Hdata. unfold valuate, Datatools.__bool__.
    cbn [_normalize_date_input mbind result_bind].
    by rewrite (DatatoolsFacts.self_data_unassigned _ _ Hdata).
Qed.

End Valuating.

End AssetFacts.

(** ** The further properties on concrete inputs *)

Module OnMoreExamples.

Import pd Examples.

Ltac absent_label :=
  vm_compute; let H := fresh in intros H;
  repeat (apply elem_of_cons in H as [H|H]; [discriminate|]);
  by apply elem_of_nil in H.

Ltac present_label :=
  vm_compute; repeat first [by left | right].

Lemma numeric_open_name_missing_witness :
  Datatools.__init__ Datatools.stamps_only 100 bar_type
    (Some (Datatools.RNumeric 5%Z)) None
  = Err (ValueError "AssetData missing required columns: 'OPEN'").
Proof.
  apply (DatasetFacts.numeric_open_name_missing Datatools.stamps_only 100
           bar_type 5%Z None "open").
  - reflexivity.
  - vm_compute. absent_label.
Defined.

Lemma column_format_normal_form_witness :
  PyStr.isascii (Datatools.column_format "Adj Close") = true
  /\ String.length (Datatools.column_format "Adj Close") = 9%nat
  /\ PyStr.has_char " " (Datatools.column_format "Adj Close") = false
  /\ Datatools.column_format (Datatools.column_format "Adj Close")
     = Datatools.column_format "Adj Close".
Proof.
  destruct (DatasetFacts.column_format_normal_form "Adj Close" eq_refl)
    as (Hascii & Hlen & Hspace & _ & Hidem).
  repeat split; assumption.
Defined.

Lemma stamps_only_finds (selection : list (list (cell Z))) :
  Datatools.stamps_only selection <> Err FileNotFoundError.
Proof.
  unfold Datatools.stamps_only.
  destruct selection as [|column [|]]; try discriminate.
  induction column as [|c column IH]; [discriminate|].
  cbn [mapM]. destruct c; try discriminate. cbn.
  destruct (mapM _ column) as [|e]; [discriminate|]. cbn.
  intros [= ->]. by apply IH.
Qed.

Lemma validate_columns_message_witness :
  exists unsatisfied,
    Datatools.validate_columns sparse (Some ["close"; "volume"; "adj close"; "Volume"])
      (Some ["extra"])
    = Err (ValueError ("AssetData missing required columns: "
                       ++ PyStr.list_body unsatisfied))
    /\ NoDup unsatisfied
    /\ "VOLUME" ∈ unsatisfied /\ "CLOSE" ∉ unsatisfied.
Proof.
  destruct (DatasetFacts.validate_columns_message sparse
              (Some ["close"; "volume"; "adj close"; "Volume"]) (Some ["extra"]))
    as (unsatisfied & Hrun & Hnodup & Hspec).
  - exists "volume". split; [present_label|absent_label].
  - exists unsatisfied. repeat split; auto.
    + apply Hspec. split; [exists "volume"; split; [present_label|reflexivity]|].
      absent_label.
    + intros Hin. apply Hspec in Hin as [_ Hin]. apply Hin. present_label.
Defined.

Lemma validate_columns_keeps_listed_witness :
  Datatools.validate_columns sparse (Some ["close"]) (Some ["extra"])
  = Ok {| index := RangeIndex 1;
          series := [("CLOSE", [Num 7%Z]); ("EXTRA", [Num 1%Z])] |}.
Proof.
  apply (DatasetFacts.validate_columns_keeps_listed sparse (Some ["close"])
           (Some ["extra"])).
  - intros r Hr. apply list_elem_of_singleton in Hr as ->. present_label.
  - vm_compute. apply NoDup_singleton.
Defined.

Lemma validate_columns_repeated_extra_witness :
  exists k,
    Datatools.validate_columns cluttered (Some ["close"]) None = Err (KeyError k)
    /\ k ∈ columns cluttered
    /\ k ∉ Datatools.listed_names (Some ["close"]) None.
Proof.
  apply (DatasetFacts.validate_columns_repeated_extra cluttered (Some ["close"]) None).
  - intros r Hr. apply list_elem_of_singleton in Hr as ->. present_label.
  - vm_compute. intros Hnodup. apply NoDup_cons in Hnodup as [Hfresh _].
    apply Hfresh. left.
Defined.

Lemma validate_columns_idempotent_witness :
  let kept := {| index := RangeIndex 1;
                 series := [("CLOSE", [Num 7%Z]); ("EXTRA", [Num 1%Z])] |} in
  Datatools.validate_columns kept (Some ["close"]) (Some ["extra"]) = Ok kept
  /\ (forall r, r ∈ ["close"] -> Datatools.column_format r ∈ columns kept)
  /\ (forall c, c ∈ columns kept
                -> c ∈ Datatools.listed_names (Some ["close"]) (Some ["extra"])).
Proof.
  apply (DatasetFacts.validate_columns_idempotent sparse (Some ["close"])
           (Some ["extra"])).
  vm_compute. reflexivity.
Defined.

Lemma constructed_table_shape_witness :
  exists table stamps,
    Datatools.data priced_dataset = Some table
    /\ index table = DatetimeIndex stamps
    /\ ("DATE" ∉ columns table)
    /\ forall l, l ∈ columns table -> Datatools.column_format l = l.
Proof.
  apply (DatasetFacts.constructed_table_shape Datatools.stamps_only 0
           priced_type (Datatools.RFrame quotes) None priced_dataset).
  vm_compute. reflexivity.
Defined.

Lemma constructed_names_witness :
  exists o c table,
    Datatools.open_value bars_dataset = Some o
    /\ Datatools.close_value bars_dataset = Some c
    /\ Datatools.data bars_dataset = Some table
    /\ PyStr.truthy o = true /\ PyStr.truthy c = true
    /\ Datatools.column_format o = o /\ Datatools.column_format c = c
    /\ (Datatools.single_valued bars_dataset = Some true -> o = c)
    /\ forall name, name = o \/ name = c -> name <> "DATE" ->
         name ∈ columns table
         /\ forall depth,
              Datatools.__getitem__ depth bars_dataset name
              = Ok (select name table).
Proof.
  apply (DatasetFacts.constructed_names Datatools.stamps_only 0
           bare_type (Datatools.RFrame bars) None bars_dataset).
  vm_compute. reflexivity.
Defined.

Lemma constructed_columns_listed_witness :
  exists o c table,
    Datatools.open_value bars_dataset = Some o
    /\ Datatools.close_value bars_dataset = Some c
    /\ Datatools.data bars_dataset = Some table
    /\ forall l, l ∈ columns table ->
         l = o \/ l = c
         \/ l ∈ map Datatools.column_format
                  (default [] (Datatools.s_required bare_type))
         \/ l ∈ map Datatools.column_format
                  (default [] (Datatools.s_optional bare_type)).
Proof.
  apply (DatasetFacts.constructed_columns_listed Datatools.stamps_only 0
           bare_type (Datatools.RFrame bars) None bars_dataset).
  vm_compute. reflexivity.
Defined.

Lemma no_price_column_refused_witness :
  Datatools.__init__ Datatools.stamps_only 0 bare_type
    (Some (Datatools.RFrame quotes)) None
  = Err (ValueError Datatools.no_name_message).
Proof.
  apply (DatasetFacts.no_price_column_refused Datatools.stamps_only 0 bare_type
           (Datatools.RFrame quotes) None quotes [] None);
    [reflexivity|reflexivity|reflexivity|absent_label|absent_label].
Defined.

Lemma default_price_columns_witness :
  Datatools.__init__ Datatools.stamps_only 0 bare_type
    (Some (Datatools.RFrame bars)) None = Ok bars_dataset
  /\ Datatools.close_value bars_dataset = Some "CLOSE"
  /\ Datatools.open_value bars_dataset = Some "OPEN"
  /\ Datatools.single_valued bars_dataset = Some false.
Proof.
  assert (Hrun : Datatools.__init__ Datatools.stamps_only 0 bare_type
                   (Some (Datatools.RFrame bars)) None = Ok bars_dataset)
    by (vm_compute; reflexivity).
  split; [exact Hrun|].
  destruct (DatasetFacts.default_price_columns Datatools.stamps_only 0 bare_type
              (Datatools.RFrame bars) None bars [] None eq_refl eq_refl eq_refl
              ltac:(present_label) bars_dataset Hrun) as (Hclose & Hboth & _).
  split; [exact Hclose|]. apply Hboth. present_label.
Defined.

Lemma undated_frame_refused_witness :
  exists msg,
    Datatools.__init__ Datatools.stamps_only 0 bare_type
      (Some (Datatools.RFrame sparse)) None = Err (ValueError msg)
    /\ PyStr.occurs "'DATE'" msg.
Proof.
  destruct (DatasetFacts.undated_frame_refused Datatools.stamps_only 0 bare_type
              (Datatools.RFrame sparse) None sparse [] None eq_refl
              ltac:(absent_label)) as (msg & Hrun & Hshown).
  exists msg. split; [exact Hrun|]. apply Hshown. vm_compute. reflexivity.
Defined.

Lemma constructed_index_witness :
  exists table stamps,
    Datatools.data priced_dataset = Some table
    /\ index table = DatetimeIndex stamps
    /\ stamps = [10%Z; 20%Z].
Proof.
  destruct (DatasetFacts.constructed_index Datatools.stamps_only 0 priced_type
              (Datatools.RFrame quotes) None priced_dataset quotes [] (Some "price")
              eq_refl ltac:(vm_compute; reflexivity))
    as (table & stamps & Hdata & Hindex & _ & Hdates).
  exists table, stamps. repeat split; auto.
  apply Hdates; [vm_compute; reflexivity|exact OnExamples.stamps_only_stamps].
Defined.

Lemma datetime_index_kept_witness :
  exists table,
    Datatools.data closes_dataset = Some table
    /\ index table = DatetimeIndex [10%Z; 20%Z].
Proof.
  apply (DatasetFacts.datetime_index_kept Datatools.stamps_only 0 bare_type
           (Datatools.RFrame two_days) None closes_dataset two_days [] None
           [10%Z; 20%Z]).
  - reflexivity.
  - reflexivity.
  - intros l Hl. vm_compute in Hl.
    repeat (apply elem_of_cons in Hl as [->|Hl]; [vm_compute; discriminate|]).
    by apply elem_of_nil in Hl.
  - vm_compute. lia.
  - exact OnExamples.stamps_only_stamps.
  - vm_compute. reflexivity.
Defined.

Lemma bool_of_constructed_witness :
  exists df,
    Datatools.data priced_dataset = Some df
    /\ Datatools.__bool__ limit priced_dataset = Ok (negb (empty df)).
Proof.
  apply (DatatoolsFacts.bool_of_constructed Datatools.stamps_only 0 priced_type
           (Datatools.RFrame quotes) None priced_dataset limit).
  vm_compute. reflexivity.
Defined.

Lemma get_data_none_witness :
  Datatools.get_data Datatools.stamps_only 0 bare_type (Some "STOCK_AAPL")
    no_pickle no_table = Ok None.
Proof.
  destruct (DatasetFacts.get_data_none Datatools.stamps_only 0 stamps_only_finds
              bare_type no_pickle no_table "STOCK_AAPL") as [Hnone _].
  apply Hnone; reflexivity.
Defined.

Lemma get_data_source_witness :
  Datatools.get_data Datatools.stamps_only 0 bare_type (Some "STOCK_AAPL")
    pickled_table no_table = Ok (Some closes_dataset).
Proof.
  destruct (DatasetFacts.get_data_source Datatools.stamps_only 0 stamps_only_finds
              bare_type pickled_table no_table "STOCK_AAPL" two_days)
    as [Hpickle _].
  rewrite Hpickle by reflexivity. vm_compute. reflexivity.
Defined.

Lemma get_data_unreadable_witness :
  Datatools.get_data Datatools.stamps_only 0 bare_type (Some "STOCK_AAPL")
    no_pickle garbled_table
  = Err (ValueError ("Unable to create valid asset dataset from "
                     ++ Datatools.raw_path "STOCK_AAPL")).
Proof.
  apply (DatasetFacts.get_data_unreadable Datatools.stamps_only 0 bare_type
           no_pickle garbled_table "STOCK_AAPL" (ValueError "garbled"));
    [reflexivity|reflexivity|right; by eexists].
Defined.

Lemma assigned_tag_is_member_witness :
  "STOCK" ∈ map Finance.tag (Finance.extend_enum Finance.TYPES_initial "STOCK")
  /\ exists x,
       Finance.lookup_member (Finance.extend_enum Finance.TYPES_initial "STOCK")
         "STOCK" = Ok x
       /\ Finance.tag x = "STOCK".
Proof.
  apply (AssetFacts.assigned_tag_is_member Finance.TYPES_initial
           (Finance.extend_enum Finance.TYPES_initial "STOCK") stock_class "STOCK").
  - present_label.
  - intros t [=].
  - vm_compute. reflexivity.
Defined.

Lemma same_upper_name_same_tag_witness :
  exists TYPES' type,
    Finance.__init_subclass__ Finance.TYPES_initial stock_class = Ok (TYPES', type)
    /\ Finance.__init_subclass__ TYPES' shouting_class = Ok (TYPES', type).
Proof.
  apply (AssetFacts.same_upper_name_same_tag Finance.TYPES_initial stock_class
           shouting_class).
  - split; absent_label.
  - split; absent_label.
  - reflexivity.
Defined.

Lemma register_then_lookup_witness :
  let after :=
    Finance.registered (Finance.register "STOCK" 1 "AAPL" false first_state).1 in
  Finance.member_getitem {| Finance.tag := "STOCK"; Finance.instances := after |}
    "AAPL" = Ok 1
  /\ Finance.Instances_getattr "STOCK" after "AAPL" = Ok 1
  /\ forall other, other <> "AAPL" ->
       Finance.member_getitem
         {| Finance.tag := "STOCK"; Finance.instances := after |} other
       = Finance.member_getitem
           {| Finance.tag := "STOCK";
              Finance.instances := Finance.registered first_state |} other
       /\ Finance.Instances_getattr "STOCK" after other
          = Finance.Instances_getattr "STOCK" (Finance.registered first_state)
              other.
Proof.
  apply (AssetFacts.register_then_lookup "STOCK" 1 "AAPL" first_state).
  cbn. apply not_elem_of_dom. apply lookup_empty.
Defined.

Lemma valuate_most_recent_witness :
  Finance.valuate no_iso Finance.base_valuate limit (asset_of gappy)
    (Finance.Datetime 35)
  = Ok (Finance.set_current_price (asset_of gappy) (Scalar (Num 9%Z)),
        Scalar (Num 9%Z)).
Proof.
  apply (AssetFacts.valuate_most_recent no_iso Finance.base_valuate limit
           (asset_of gappy) gappy [10%Z; 20%Z; 30%Z] [Num 7%Z; Num 9%Z; NaN]
           35%Z 20%Z 1).
  - reflexivity.
  - reflexivity.
  - reflexivity.
  - absent_label.
  - reflexivity.
  - reflexivity.
  - lia.
  - reflexivity.
  - intros j t' Hj Ht' _.
    destruct j as [|[|[|j]]]; [lia|lia|reflexivity|discriminate].
Defined.

Lemma valuate_unsorted_witness :
  Finance.valuate no_iso Finance.base_valuate limit (asset_of shuffled)
    (Finance.Datetime 25)
  = Err (ValueError "asof requires a sorted index")
  /\ Finance.valuate no_iso Finance.base_valuate limit (asset_of shuffled)
       Finance.NoDate
     = Err (ValueError "asof requires a sorted index").
Proof.
  apply (AssetFacts.valuate_unsorted no_iso Finance.base_valuate limit
           (asset_of shuffled) shuffled [20%Z; 10%Z] 25%Z);
    [reflexivity|reflexivity|reflexivity|discriminate|absent_label].
Defined.

Lemma valuate_again_witness :
  let priced :=
    Finance.set_current_price (asset_of two_days) (Scalar (Num 9%Z)) in
  priced = Finance.set_current_price (asset_of two_days) (Scalar (Num 9%Z))
  /\ Finance.price priced = Scalar (Num 9%Z)
  /\ Finance.valuate no_iso Finance.base_valuate limit priced (Finance.Datetime 25)
     = Ok (priced, Scalar (Num 9%Z)).
Proof.
  apply (AssetFacts.valuate_again no_iso Finance.base_valuate limit
           (asset_of two_days) two_days (Finance.Datetime 25));
    [reflexivity|reflexivity|vm_compute; reflexivity].
Defined.

Lemma valuate_unknown_column_witness :
  Finance.valuate no_iso Finance.base_valuate limit (asset_of volumes)
    (Finance.Datetime 25)
  = Err (KeyError "CLOSE").
Proof.
  apply (AssetFacts.valuate_unknown_column no_iso Finance.base_valuate limit
           (asset_of volumes) volumes [10%Z; 20%Z] 25%Z);
    [reflexivity|reflexivity|discriminate|reflexivity|discriminate
    |absent_label|absent_label].
Defined.

End OnMoreExamples.
